(** * vscode_open: the reusable-window launcher, embedded in Rocq

    A shallow embedding of [src/vscode_open/__main__.py].  Python [str]
    values are sequences of Unicode code points; the operating system
    (process table, compositor window list, sub-processes, running
    applications) is an explicit, read-only [world]; output, sub-process
    invocations and exceptions are threaded through a small
    trace-and-exception monad. *)

From Stdlib Require Import ZArith NArith Ascii String List Lia.
From stdpp Require Import base decidable option list gmap sets sorting pretty.

Local Open Scope N_scope.

(** ** Python strings *)

Module Str.

(** A code point, and a Python [str]. *)
Definition char := N.
Definition str := list char.

(** An ASCII literal of the source, as a [str]. *)
Definition lit (s : string) : str := N_of_ascii <$> list_ascii_of_string s.

(** [x.startswith(p)]. *)
Fixpoint starts_with (p s : str) : bool :=
  match p, s with
  | [], _ => true
  | _ :: _, [] => false
  | c :: p', d :: s' => (c =? d) && starts_with p' s'
  end.

(** [p in s] on strings: [p] occurs in [s] as a contiguous run. *)
Fixpoint contains (p s : str) : bool :=
  starts_with p s
  || match s with
     | [] => false
     | _ :: s' => contains p s'
     end.

(** [str.isspace] on one code point ([Py_UNICODE_ISSPACE]); it is also
    the class [\s] of [re] on [str] patterns and what [str.strip()]
    removes. *)
Definition is_space (c : char) : bool :=
  ((9 <=? c) && (c <=? 13)) || ((28 <=? c) && (c <=? 32))
  || (c =? 133) || (c =? 160) || (c =? 5760)
  || ((8192 <=? c) && (c <=? 8202))
  || (c =? 8232) || (c =? 8233) || (c =? 8239) || (c =? 8287)
  || (c =? 12288).

(** The line boundaries of [str.splitlines]. *)
Definition is_linebreak (c : char) : bool :=
  ((10 <=? c) && (c <=? 13)) || ((28 <=? c) && (c <=? 30))
  || (c =? 133) || (c =? 8232) || (c =? 8233).

Fixpoint lstrip (s : str) : str :=
  match s with
  | [] => []
  | c :: s' => if is_space c then lstrip s' else s
  end.

Definition rstrip (s : str) : str := rev (lstrip (rev s)).

(** [s.strip()]. *)
Definition strip (s : str) : str := rstrip (lstrip s).

(** [s.splitlines()]: [cur] holds the current line, reversed.  A line
    ends at a line boundary, ["\r\n"] counts as one boundary, and a last
    line without a boundary is kept only when it is not empty. *)
Fixpoint splitlines_from (cur : str) (s : str) : list str :=
  match s with
  | [] => match cur with [] => [] | _ :: _ => [rev cur] end
  | c :: rest =>
      if is_linebreak c then
        rev cur ::
          match rest with
          | d :: rest' =>
              if (c =? 13) && (d =? 10) then splitlines_from [] rest'
              else splitlines_from [] rest
          | [] => splitlines_from [] rest
          end
      else splitlines_from (c :: cur) rest
  end.

Definition splitlines (s : str) : list str := splitlines_from [] s.

(** [" ".join(parts)] and friends. *)
Fixpoint join (sep : str) (parts : list str) : str :=
  match parts with
  | [] => []
  | [p] => p
  | p :: rest => p ++ sep ++ join sep rest
  end.

(** Comparison of strings, code point by code point ([a <= b]). *)
Fixpoint leb (a b : str) : bool :=
  match a, b with
  | [], _ => true
  | _ :: _, [] => false
  | c :: a', d :: b' => (c <? d) || ((c =? d) && leb a' b')
  end.

Definition le (a b : str) : Prop := Is_true (leb a b).

#[global] Instance le_dec : RelDecision le.
Proof. intros a b. unfold le. apply _. Defined.

(** [sorted(l)] on a list of strings. *)
Definition sorted (l : list str) : list str := merge_sort le l.

(** [f"{n}"] for a length. *)
Definition of_nat (n : nat) : str := lit (pretty n).

End Str.

Import Str.

(** ** Exceptions, output and the trace monad *)

(** The classes of [Exception] that occur. *)
Inductive exn_class :=
| FileNotFoundError | TypeError | AttributeError | IndexError
| NoSuchProcess | AccessDenied | ZombieProcess
| OtherException.

(** A raised exception.  [SystemExit] is a [BaseException], outside
    [Exception]; every [Exception] carries the text of [str(e)]. *)
Inductive exn :=
| SystemExit (code : Z)
| Exception (cls : exn_class) (msg : str).

(** What a run does to its surroundings, in order. *)
Inductive event :=
| LogDebug (msg : str)            (* logging.debug: a line on stderr *)
| Print (msg : str)               (* print: a line on stdout *)
| Spawn (argv : list str)         (* a call of subprocess.run *)
| ActivateApp (pid : N).          (* activateWithOptions_ on an application *)

Inductive outcome (A : Type) :=
| Returns (a : A)
| Raises (e : exn).
Arguments Returns {A} a.
Arguments Raises {A} e.

(** A computation: the events it produced, and how it ended. *)
Definition M (A : Type) : Type := list event * outcome A.

#[global] Instance M_ret : MRet M := λ A a, ([], Returns a).

#[global] Instance M_bind : MBind M := λ A B f m,
  match m with
  | (tr, Returns a) => let '(tr', r) := f a in (tr ++ tr', r)
  | (tr, Raises e) => (tr, Raises e)
  end.

Definition raise {A} (e : exn) : M A := ([], Raises e).
Definition emit (e : event) : M unit := ([e], Returns tt).

(** [try: m  except ...: h]: [h e] is [Some k] when a clause catches [e]. *)
Definition try_except {A} (m : M A) (h : exn → option (M A)) : M A :=
  match m with
  | (tr, Returns a) => (tr, Returns a)
  | (tr, Raises e) =>
      match h e with
      | Some k => let '(tr', r) := k in (tr ++ tr', r)
      | None => (tr, Raises e)
      end
  end.

(** [for x in l: body], where the body either leaves the function with a
    value ([Some v], a [return v]) or goes on to the next element ([None],
    a [continue] or the end of the body); [orelse] is the code after the
    loop. *)
Fixpoint for_each {A R} (l : list A) (body : A → M (option R)) (orelse : M R) : M R :=
  match l with
  | [] => orelse
  | x :: l' =>
      r ← body x;
      match r with
      | Some v => mret v
      | None => for_each l' body orelse
      end
  end.

(** A list comprehension [[x for x in l if p x]] whose test may raise. *)
Fixpoint filter_m {A} (p : A → M bool) (l : list A) : M (list A) :=
  match l with
  | [] => mret []
  | x :: l' =>
      b ← p x;
      rest ← filter_m p l';
      mret (if b : bool then x :: rest else rest)
  end.

Definition trace {A} (m : M A) : list event := m.1.
Definition result {A} (m : M A) : outcome A := m.2.

(** The exit status of the interpreter for a run of the program. *)
Definition exit_status (o : outcome unit) : Z :=
  match o with
  | Returns _ => 0
  | Raises (SystemExit code) => code
  | Raises (Exception _ _) => 1
  end%Z.

Definition log_debug (message : str) : M unit := emit (LogDebug message).
Definition print (message : str) : M unit := emit (Print message).
Definition sys_exit {A} (code : Z) : M A := raise (SystemExit code).

(** ** The operating system *)

(** One entry of [psutil.process_iter(["cmdline"])]: reading
    [proc.info["cmdline"]] gives [None] or a list of arguments, or raises. *)
Inductive proc_info :=
| Info (cmdline : option (list str))
| InfoRaises (cls : exn_class) (msg : str).

(** What [subprocess.run] does for one argument vector. *)
Inductive run_result :=
| Completed (stdout stderr : str) (returncode : Z)
| RunRaises (cls : exn_class) (msg : str).

(** One dictionary of [CGWindowListCopyWindowInfo]; both keys are optional. *)
Record cg_window := {
  kCGWindowOwnerName : option str;
  kCGWindowName : option str
}.

Record world := {
  process_iter : list proc_info;
  os_run : list str → run_result;
  CGWindowListCopyWindowInfo : option (list cg_window);
  runningApplications : list N
}.

(** A value that is [False] or a list of titles. *)
Inductive titles_or_false :=
| PyFalse
| PyList (l : list str).

(** ** Library calls used by the program *)

(** [str.split()] with no argument: the runs of non-space characters;
    [cur] holds the current word, reversed. *)
Fixpoint split_from (cur : str) (s : str) : list str :=
  match s with
  | [] => match cur with [] => [] | _ :: _ => [rev cur] end
  | c :: rest =>
      if is_space c then
        match cur with
        | [] => split_from [] rest
        | _ :: _ => rev cur :: split_from [] rest
        end
      else split_from (c :: cur) rest
  end.

Definition split (s : str) : list str := split_from [] s.

(** [shlex.split(command)], for a command without quotes, escapes or
    comment characters, as the one command the program passes is: the
    words between spaces. *)
Definition shlex_split (command : str) : list str := split command.

(** The characters [shlex.quote] leaves alone: ASCII letters and digits,
    and [_@%+=:,./-]. *)
Definition is_safe (c : char) : bool :=
  ((48 <=? c) && (c <=? 57)) || ((65 <=? c) && (c <=? 90))
  || ((97 <=? c) && (c <=? 122))
  || (c =? 95) || (c =? 64) || (c =? 37) || (c =? 43) || (c =? 61)
  || (c =? 58) || (c =? 44) || (c =? 46) || (c =? 47) || (c =? 45).

(** [shlex.quote(s)]: an empty string becomes two single quotes, a safe one
    is unchanged, any other is put between single quotes with each single
    quote of its own (39) replaced by quote, double quote (34), quote,
    double quote, quote. *)
Definition shlex_quote (s : str) : str :=
  match s with
  | [] => [39; 39]
  | _ :: _ =>
      if forallb is_safe s then s
      else [39] ++ mbind (M := list)
                     (λ c, if c =? 39 then [39; 34; 39; 34; 39] else [c]) s
                ++ [39]
  end.

(** [subprocess.run(argv, ...)] with [check=False]: the call is recorded,
    then the process completes with some exit code, or the call raises. *)
Definition subprocess_run (w : world) (argv : list str) : M (str * str * Z) :=
  emit (Spawn argv);;
  match os_run w argv with
  | Completed out err rc => mret (out, err, rc)
  | RunRaises cls msg => raise (Exception cls msg)
  end.

(** [sorted(v)]: [False] is not iterable. *)
Definition py_sorted (v : titles_or_false) : M (list str) :=
  match v with
  | PyFalse => raise (Exception TypeError (lit "'bool' object is not iterable"))
  | PyList l => mret (sorted l)
  end.

(** ** The regular expression of the status parser

    The pattern is a bar, [\s+], the text [Window], a space, an opening
    parenthesis, one group holding dot-star, and a closing parenthesis. *)

(** The group followed by the closing parenthesis: a dot is any character but a newline
    (10), the star takes all it can and gives back until a closing
    parenthesis (41) follows; the group is the text before the last closing
    parenthesis of the run, if there is one. *)
Fixpoint group_before_last_paren (s : str) : option str :=
  match s with
  | [] => None
  | c :: s' =>
      if c =? 10 then None
      else match group_before_last_paren s' with
           | Some g => Some (c :: g)
           | None => if c =? 41 then Some [] else None
           end
  end.

(** A match that starts at the head of [s]: a bar (124), one or more
    spaces, the text [Window (], the group and a closing parenthesis. *)
Definition match_here (s : str) : option str :=
  match s with
  | c :: s1 =>
      if c =? 124 then
        match s1 with
        | d :: _ =>
            if is_space d then
              let s2 := lstrip s1 in
              if starts_with (lit "Window (") s2
              then group_before_last_paren (drop 8 s2)
              else None
            else None
        | [] => None
        end
      else None
  | [] => None
  end.

(** [pattern.search(line)] and [match.group(1)]: the first position, from
    the left, at which the pattern matches. *)
Fixpoint search (s : str) : option str :=
  match match_here s with
  | Some g => Some g
  | None =>
      match s with
      | [] => None
      | _ :: s' => search s'
      end
  end.

(** ** The program *)

Definition target_pattern : str := lit "Visual Studio Code.app".
Definition marker : str := lit "Workspace Stats:".
Definition welcome : str := lit "Welcome".

(** [run_command(command)]: standard output, standard error and the return
    code; a missing command gives code 127, any other [Exception] code 1. *)
Definition run_command (w : world) (command : str) : M (str * str * Z) :=
  try_except
    (subprocess_run w (shlex_split command))
    (λ e,
       match e with
       | Exception FileNotFoundError _ =>
           Some (match split command with
                 | [] => raise (Exception IndexError (lit "list index out of range"))
                 | arg0 :: _ =>
                     log_debug (lit "Command not found: " ++ arg0);;
                     mret ([], lit "Command not found: " ++ arg0, 127%Z)
                 end)
       | Exception _ msg =>
           Some (log_debug (lit "An unexpected error occurred while running '"
                              ++ command ++ lit "': " ++ msg);;
                 mret ([], msg, 1%Z))
       | SystemExit _ => None
       end).

(** The body of the [try] in the loop of [is_vscode_running]: [Some true]
    is [return True], [None] is [continue]. *)
Definition inspect_process (proc : proc_info) : M (option bool) :=
  cmdline ← match proc with
            | Info cmdline => mret cmdline
            | InfoRaises cls msg => raise (Exception cls msg)
            end;
  match cmdline with
  | None | Some [] => mret None
  | Some parts =>
      if existsb (contains target_pattern) parts then mret (Some true)
      else mret None
  end.

Definition is_vscode_running (w : world) : M bool :=
  for_each (process_iter w)
    (λ proc,
       try_except (inspect_process proc)
         (λ e,
            match e with
            | Exception NoSuchProcess _
            | Exception AccessDenied _
            | Exception ZombieProcess _ => Some (mret None)
            | _ => None
            end))
    (mret false).

(** The loop over the lines of the status output (lines 79 to 87). *)
Fixpoint scan_status (in_workspace_stats_section : bool) (lines : list str)
    (workspace_titles : list str) : list str :=
  match lines with
  | [] => workspace_titles
  | line :: rest =>
      if contains marker line then scan_status true rest workspace_titles
      else if in_workspace_stats_section then
        match search line with
        | Some g =>
            scan_status in_workspace_stats_section rest (workspace_titles ++ [strip g])
        | None => scan_status in_workspace_stats_section rest workspace_titles
        end
      else scan_status in_workspace_stats_section rest workspace_titles
  end.

(** The workspace titles of a status output (lines 73 to 87). *)
Definition parse_workspace_titles (status_output : str) : list str :=
  scan_status false (splitlines status_output) [].

(** The loop over the window titles (lines 99 to 109). *)
Definition find_reusable (all_window_titles : list str)
    (workspace_title_set : gset str) : M bool :=
  for_each all_window_titles
    (λ title,
       if decide (title = welcome) then
         log_debug (lit "Ignoring 'Welcome' window.");; mret None
       else if decide (title ∉ workspace_title_set) then
         log_debug (lit "Found reusable window: '" ++ title
                      ++ lit "' (not in workspace list).");;
         mret (Some true)
       else mret None)
    (log_debug (lit "No reusable window found after comparing with Workspace Stats.");;
     mret false).

(** The comparison of the two lists of titles (lines 89 to 109). *)
Definition classify (all_window_titles : titles_or_false)
    (workspace_titles : list str) : M bool :=
  all_window_titles ← py_sorted all_window_titles;
  let workspace_titles := sorted workspace_titles in
  let workspace_title_set : gset str := list_to_set workspace_titles in
  log_debug (lit "Found " ++ of_nat (length all_window_titles) ++ lit " total windows.");;
  log_debug (lit "Found " ++ of_nat (size workspace_title_set)
               ++ lit " declared workspaces.");;
  find_reusable all_window_titles workspace_title_set.

Definition activate_vscode (w : world) : M bool :=
  match runningApplications w with
  | app :: _ =>
      emit (ActivateApp app);;
      log_debug (lit "Successfully activated the VSCode application.");;
      mret true
  | [] =>
      log_debug (lit "Could not find the running VSCode application to activate.");;
      mret false
  end.

Section Program.

(** [str.lower], the case mapping of the Unicode tables. *)
Variable lower : str → str.

Definition owned_by_code (win : cg_window) : M bool :=
  match kCGWindowOwnerName win with
  | Some name => mret (contains (lit "code") (lower name))
  | None =>
      raise (Exception AttributeError
               (lit "'NoneType' object has no attribute 'lower'"))
  end.

(** [window.get("kCGWindowName", "").strip()]. *)
Definition window_title (window : cg_window) : str :=
  strip (default [] (kCGWindowName window)).

Definition get_vscode_window_names_cg (w : world) : M titles_or_false :=
  window_list ← match CGWindowListCopyWindowInfo w with
                | Some l => mret l
                | None =>
                    raise (Exception TypeError
                             (lit "'NoneType' object is not iterable"))
                end;
  vscode_windows ← filter_m owned_by_code window_list;
  log_debug (lit "Found " ++ of_nat (length vscode_windows)
               ++ lit " on-screen VSCode windows via CoreGraphics.");;
  match vscode_windows with
  | [] => mret PyFalse
  | _ :: _ => mret (PyList (window_title <$> vscode_windows))
  end.

Definition find_reusable_window_from_status (w : world) : M bool :=
  '(status_output, stderr, retcode) ← run_command w (lit "code --status");
  if decide (retcode ≠ 0%Z) then
    log_debug (lit "Failed to run 'code --status'. Stderr: " ++ strip stderr);;
    mret false
  else
    all_window_titles ← get_vscode_window_names_cg w;
    let workspace_titles := parse_workspace_titles status_output in
    classify all_window_titles workspace_titles.

Definition new_window_argv (files_to_open : list str) : list str :=
  [lit "code"; lit "--new-window"] ++ files_to_open.

Definition reuse_window_argv (files_to_open : list str) : list str :=
  [lit "code"; lit "--reuse-window"] ++ files_to_open.

(** [main(files_to_open)], after the command line has been validated. *)
Definition main (w : world) (files_to_open : list str) : M unit :=
  running ← is_vscode_running w;
  (if negb running then
     log_debug (lit "No VSCode process running.");;
     match files_to_open with
     | _ :: _ =>
         log_debug (lit "Opening files in a new window.");;
         subprocess_run w (new_window_argv files_to_open);; mret tt
     | [] => print (lit "VSCode is not running.")
     end;;
     sys_exit 0
   else mret tt);;
  reusable_window_exists ← find_reusable_window_from_status w;
  match files_to_open with
  | [] =>
      (if reusable_window_exists : bool
       then print (lit "A reusable non-workspace VSCode window was found.")
       else print (lit "No reusable non-workspace VSCode window was found."));;
      sys_exit 0
  | _ :: _ => mret tt
  end;;
  let quoted_files := join (lit " ") (shlex_quote <$> files_to_open) in
  (if reusable_window_exists : bool then
     log_debug (lit "Decision: A reusable non-workspace window exists. Activating and reusing.");;
     print (lit "Opening files in a reused VSCode window: " ++ quoted_files);;
     activate_vscode w;;
     subprocess_run w (reuse_window_argv files_to_open);; mret tt
   else
     log_debug (lit "Decision: No suitable non-workspace window found. Opening in a new window.");;
     print (lit "Opening files in a new VSCode window: " ++ quoted_files);;
     subprocess_run w (new_window_argv files_to_open);; mret tt);;
  sys_exit 0.

(** A window of the compositor list that has an owner name. *)
Definition has_owner (win : cg_window) : bool :=
  bool_decide (is_Some (kCGWindowOwnerName win)).

(** The test of the comprehension, for a window that has an owner name. *)
Definition code_owner (win : cg_window) : bool :=
  match kCGWindowOwnerName win with
  | Some name => contains (lit "code") (lower name)
  | None => false
  end.

End Program.

(** ** The vocabulary of the statements *)

(** The entries whose inspection raises one of the errors the loop
    catches: a process that is gone, is out of reach, or is a zombie. *)
Definition skippable (cls : exn_class) : bool :=
  match cls with
  | NoSuchProcess | AccessDenied | ZombieProcess => true
  | _ => false
  end.

(** An entry that can be read, or whose inspection raises one of them. *)
Definition tolerated (proc : proc_info) : bool :=
  match proc with
  | Info _ => true
  | InfoRaises cls _ => skippable cls
  end.

(** A surviving process one of whose arguments holds the bundle path. *)
Definition shows_vscode (proc : proc_info) : bool :=
  match proc with
  | Info (Some parts) => existsb (contains target_pattern) parts
  | _ => false
  end.

(** A title the loop returns on: not the welcome title and not a
    workspace title. *)
Definition reusable (workspace_title_set : gset str) (title : str) : bool :=
  bool_decide (title ≠ welcome) && bool_decide (title ∉ workspace_title_set).

(** [t] is the trimmed group of a line of [lines] that matches the pattern,
    does not hold the marker, and comes with the section flag set: the
    flag was set from the start ([b]) or an earlier line holds the marker. *)
Definition hit (b : bool) (lines : list str) (t : str) : Prop :=
  ∃ (j : nat) line g,
    lines !! j = Some line ∧ contains marker line = false ∧
    search line = Some g ∧ t = strip g ∧
    (b = true ∨
     ∃ (i : nat) mline,
       (i < j)%nat ∧ lines !! i = Some mline ∧ contains marker mline = true).

(** The titles the parser captures, in the words of the code: the trimmed
    groups of the lines that match the pattern, do not themselves hold the
    marker, and come after a line that holds it. *)
Definition captured (lines : list str) (t : str) : Prop :=
  ∃ (i j : nat) mline line g,
    lines !! i = Some mline ∧ contains marker mline = true ∧ (i < j)%nat ∧
    lines !! j = Some line ∧ contains marker line = false ∧
    search line = Some g ∧ t = strip g.

(** The titles of the claim as it is worded: the trimmed groups of the
    lines that match the pattern and come after a line that holds the
    marker. *)
Definition captured_as_worded (lines : list str) (t : str) : Prop :=
  ∃ (i j : nat) mline line g,
    lines !! i = Some mline ∧ contains marker mline = true ∧ (i < j)%nat ∧
    lines !! j = Some line ∧ search line = Some g ∧ t = strip g.

Definition status_example : str :=
  lit "| Window (foo)" ++ [10] ++ lit "Workspace Stats:" ++ [10] ++ lit "| Window (bar)".

Definition marker_title_example : str :=
  lit "Workspace Stats:" ++ [10] ++ lit "| Window (Workspace Stats: x)".

Definition status_argv : list str := [lit "code"; lit "--status"].

(** The return code [run_command] reports for the status command. *)
Definition status_retcode (w : world) : Z :=
  match os_run w status_argv with
  | Completed _ _ rc => rc
  | RunRaises FileNotFoundError _ => 127
  | RunRaises _ _ => 1
  end.

(** [sat P Q m]: every event of [m] satisfies [P], and an exception that
    leaves [m] satisfies [Q]. *)
Definition sat {A} (P : event → Prop) (Q : exn → Prop) (m : M A) : Prop :=
  Forall P (trace m) ∧ ∀ e, result m = Raises e → Q e.

(** An exception of the class [Exception]: anything but [SystemExit]. *)
Definition is_exception (e : exn) : Prop :=
  match e with
  | Exception _ _ => True
  | SystemExit _ => False
  end.

(** The events of the classification step: debug lines and the one call
    of the status command. *)
Definition benign (ev : event) : Prop :=
  match ev with
  | LogDebug _ => True
  | Spawn argv => argv = status_argv
  | _ => False
  end.

(** A call of the editor command line that opens files: the program
    [code] with the new-window or the reuse-window flag. *)
Definition is_launch (ev : event) : Prop :=
  match ev with
  | Spawn (prog :: flag :: _) =>
      prog = lit "code" ∧ (flag = lit "--new-window" ∨ flag = lit "--reuse-window")
  | _ => False
  end.

(** The lines written on standard output. *)
Definition printed (tr : list event) : list str :=
  omap (λ ev, match ev with Print msg => Some msg | _ => None end) tr.

(** The calls of [subprocess.run]. *)
Definition spawned (tr : list event) : list (list str) :=
  omap (λ ev, match ev with Spawn argv => Some argv | _ => None end) tr.

(** How a launch ends the run: [sys.exit(0)] after a process that
    completed, whatever its return code, or the exception of the call. *)
Definition after_launch (w : world) (argv : list str) : outcome unit :=
  match os_run w argv with
  | Completed _ _ _ => Raises (SystemExit 0)
  | RunRaises cls msg => Raises (Exception cls msg)
  end.

Definition verdict (reusable_window_exists : bool) : str :=
  if reusable_window_exists
  then lit "A reusable non-workspace VSCode window was found."
  else lit "No reusable non-workspace VSCode window was found.".

(** [str.lower] on ASCII text. *)
Definition ascii_lower (s : str) : str :=
  (λ c, if (65 <=? c) && (c <=? 90) then c + 32 else c) <$> s.

Definition electron : str :=
  lit "/Applications/Visual Studio Code.app/Contents/MacOS/Electron".

(** The editor is not running and the [code] command is not installed. *)
Definition world_idle : world := {|
  process_iter :=
    [Info (Some [lit "/sbin/launchd"]); InfoRaises AccessDenied (lit "(pid=1)");
     Info None];
  os_run := λ _,
    RunRaises FileNotFoundError (lit "[Errno 2] No such file or directory: 'code'");
  CGWindowListCopyWindowInfo := Some [];
  runningApplications := []
|}.

(** The editor is running, the status command works, and no window of the
    editor is on screen (all are minimised, say). *)
Definition world_minimised : world := {|
  process_iter := [Info (Some [electron])];
  os_run := λ argv,
    if decide (argv = status_argv) then Completed status_example [] 0
    else Completed [] [] 0;
  CGWindowListCopyWindowInfo :=
    Some [{| kCGWindowOwnerName := Some (lit "Finder");
             kCGWindowName := Some (lit "Desktop") |}];
  runningApplications := [501]
|}.

Definition untitled_window : cg_window :=
  {| kCGWindowOwnerName := Some (lit "Code"); kCGWindowName := None |}.

(** The editor is running with a workspace window [bar] and a window
    without a title; the editor command line ends with code 3. *)
Definition world_editing : world := {|
  process_iter := [InfoRaises NoSuchProcess (lit "(pid=77)"); Info (Some [electron])];
  os_run := λ argv,
    if decide (argv = status_argv) then Completed status_example [] 0
    else Completed [] [] 3;
  CGWindowListCopyWindowInfo :=
    Some [{| kCGWindowOwnerName := Some (lit "Code");
             kCGWindowName := Some (lit " bar ") |};
          {| kCGWindowOwnerName := Some (lit "Finder"); kCGWindowName := None |};
          untitled_window];
  runningApplications := [501]
|}.

(** The status command is there and fails with code 2. *)
Definition world_status_error : world := {|
  process_iter := [Info (Some [electron])];
  os_run := λ _, Completed [] (lit " crashed ") 2;
  CGWindowListCopyWindowInfo := Some [untitled_window];
  runningApplications := [501]
|}.

(** The claim on the query-only mode, as it is worded: without files no
    launch is started, the one thing printed is whether a reusable window
    exists, and the run exits with code 0. *)
Definition query_only_as_worded (lower : str → str) (w : world) : Prop :=
  Forall (λ ev, ¬ is_launch ev) (trace (main lower w [])) ∧
  (∃ b, printed (trace (main lower w [])) = [verdict b]) ∧
  result (main lower w []) = Raises (SystemExit 0).

(** Every call of the editor command line that opens files completes,
    with whatever return code. *)
Definition launches_complete (w : world) : Prop :=
  ∀ argv, is_launch (Spawn argv) → ∃ out err rc, os_run w argv = Completed out err rc.

(** Closes [Forall] goals over an explicit list of events none of which
    is a launch. *)
Ltac quiet_events :=
  repeat (apply Forall_cons_2; [cbn; tauto|]); apply Forall_nil_2.

(** ** The AppleScript enumerator *)

(** A text between two double quotes (34). *)
Definition quoted (s : str) : str := [34] ++ s ++ [34].

(** The script of [get_vscode_window_names_as] (lines 154 to 165), line by
    line; each line ends with a newline (10). *)
Definition applescript : str :=
  [10]
  ++ lit "    tell application " ++ quoted (lit "System Events") ++ [10]
  ++ lit "        if not (exists process " ++ quoted (lit "Code")
  ++ lit ") then return " ++ quoted [] ++ [10]
  ++ lit "        tell process " ++ quoted (lit "Code") ++ [10]
  ++ lit "            try" ++ [10]
  ++ lit "                return name of every window" ++ [10]
  ++ lit "            on error" ++ [10]
  ++ lit "                return " ++ quoted [] ++ [10]
  ++ lit "            end try" ++ [10]
  ++ lit "        end tell" ++ [10]
  ++ lit "    end tell" ++ [10]
  ++ lit "    ".

Definition osascript_argv : list str := [lit "osascript"; lit "-e"; applescript].

(** [output.split(sep)] for the separator made of a comma (44) and a space
    (32): the pieces between the occurrences of the separator, found from
    the left; [cur] holds the current piece, reversed. *)
Fixpoint split_comma_space_from (cur : str) (s : str) : list str :=
  match s with
  | [] => [rev cur]
  | c :: rest =>
      match rest with
      | d :: rest' =>
          if (c =? 44) && (d =? 32) then rev cur :: split_comma_space_from [] rest'
          else split_comma_space_from (c :: cur) rest
      | [] => split_comma_space_from (c :: cur) rest
      end
  end.

Definition split_comma_space (s : str) : list str := split_comma_space_from [] s.

(** [get_vscode_window_names_as()] (lines 143 to 175).  The call has
    [check=True]: a return code other than 0 raises [CalledProcessError],
    which the [except] clause of the function catches, as it catches
    [FileNotFoundError]; any other exception of the call leaves the
    function. *)
Definition get_vscode_window_names_as (w : world) : M (list str) :=
  emit (Spawn osascript_argv);;
  match os_run w osascript_argv with
  | Completed stdout _ returncode =>
      if decide (returncode ≠ 0%Z) then mret []
      else
        let output := strip stdout in
        match output with
        | [] => mret []
        | _ :: _ => mret (split_comma_space output)
        end
  | RunRaises FileNotFoundError _ => mret []
  | RunRaises cls msg => raise (Exception cls msg)
  end.

(** ** More vocabulary *)

(** A command on which [shlex.split] and [str.split] agree: its spaces are
    among space, tab, carriage return and newline, and it has no quote
    (39, 34) and no backslash (92). *)
Definition shlex_plain (command : str) : bool :=
  forallb
    (λ c, if is_space c then (c =? 32) || (c =? 9) || (c =? 13) || (c =? 10)
          else negb ((c =? 39) || (c =? 34) || (c =? 92)))
    command.

(** A debug line. *)
Definition is_log (ev : event) : Prop :=
  match ev with
  | LogDebug _ => True
  | _ => False
  end.

(** What a run does besides writing: the calls of [subprocess.run] and
    the activations, in order. *)
Definition actions (tr : list event) : list event :=
  List.filter
    (λ ev, match ev with Spawn _ | ActivateApp _ => true | _ => false end) tr.

(** The call that opens the files: reuse-window when a reusable window
    exists, new-window otherwise. *)
Definition launch_argv (reusable_window_exists : bool) (files_to_open : list str)
  : list str :=
  if reusable_window_exists then reuse_window_argv files_to_open
  else new_window_argv files_to_open.

(** The call [argv] completes (with whatever return code). *)
Definition completes (w : world) (argv : list str) : Prop :=
  ∃ out err rc, os_run w argv = Completed out err rc.

(** The lines of a status output after its first marker line. *)
Fixpoint after_marker (lines : list str) : list str :=
  match lines with
  | [] => []
  | line :: rest => if contains marker line then rest else after_marker rest
  end.

(** The trimmed group of a line, if the pattern matches it. *)
Definition line_title (line : str) : option str := strip <$> search line.

(** A text that does not begin with a space character. *)
Definition starts_clean (s : str) : bool :=
  match s with
  | [] => true
  | c :: _ => negb (is_space c)
  end.

(** A text with no space character at either end. *)
Definition trimmed (s : str) : bool := starts_clean s && starts_clean (rev s).

(** The standard error text [run_command] reports for the status command. *)
Definition status_stderr (w : world) : str :=
  match os_run w status_argv with
  | Completed _ err _ => err
  | RunRaises FileNotFoundError _ => lit "Command not found: code"
  | RunRaises _ msg => msg
  end.

(** The line [main] prints before it opens files. *)
Definition opening_line (reusable_window_exists : bool) (files_to_open : list str)
  : str :=
  (if reusable_window_exists
   then lit "Opening files in a reused VSCode window: "
   else lit "Opening files in a new VSCode window: ")
  ++ join (lit " ") (shlex_quote <$> files_to_open).

(** The debug line of the loop over the titles when it returns. *)
Definition found_line (title : str) : event :=
  LogDebug (lit "Found reusable window: '" ++ title
              ++ lit "' (not in workspace list).").

(** ** More worlds *)

Definition dock_window : cg_window :=
  {| kCGWindowOwnerName := None; kCGWindowName := Some (lit "Dock") |}.

(** The editor is running with a window without a title, and a window of
    another program has no owner name. *)
Definition world_ownerless : world := {|
  process_iter := [Info (Some [electron])];
  os_run := λ argv,
    if decide (argv = status_argv) then Completed status_example [] 0
    else Completed [] [] 0;
  CGWindowListCopyWindowInfo := Some [untitled_window; dock_window];
  runningApplications := [501]
|}.

(** The scripting engine lists two windows; the compositor gives no list. *)
Definition world_scripted : world := {|
  process_iter := [Info (Some [electron])];
  os_run := λ argv,
    if decide (argv = osascript_argv)
    then Completed (lit "main.py, Welcome" ++ [10]) [] 0
    else RunRaises OtherException (lit "boom");
  CGWindowListCopyWindowInfo := None;
  runningApplications := []
|}.

Definition notes_window : cg_window :=
  {| kCGWindowOwnerName := Some (lit "Code"); kCGWindowName := Some (lit "notes.txt") |}.

(** The status command prints a report without the workspace section. *)
Definition world_no_section : world := {|
  process_iter := [Info (Some [electron])];
  os_run := λ _, Completed (lit "Version: Code 1.90" ++ [10] ++ lit "| Window (notes.txt)") [] 0;
  CGWindowListCopyWindowInfo := Some [notes_window];
  runningApplications := [501]
|}.

(** The editor shows in the process list before an entry whose inspection
    raises an error that the scan does not catch. *)
Definition world_crowded : world := {|
  process_iter :=
    [Info None; Info (Some [electron]); InfoRaises OtherException (lit "boom")];
  os_run := λ _, Completed [] [] 0;
  CGWindowListCopyWindowInfo := Some [];
  runningApplications := []
|}.

(** The entry that raises comes before the editor. *)
Definition world_broken_scan : world := {|
  process_iter :=
    [Info (Some [lit "/sbin/launchd"]); InfoRaises OtherException (lit "boom");
     Info (Some [electron])];
  os_run := λ _, Completed [] [] 0;
  CGWindowListCopyWindowInfo := Some [];
  runningApplications := []
|}.

(** As [world_idle], with another screen and another set of applications. *)
Definition world_idle_elsewhere : world := {|
  process_iter := process_iter world_idle;
  os_run := os_run world_idle;
  CGWindowListCopyWindowInfo := None;
  runningApplications := [7]
|}.

(** As [world_status_error], with nothing else to look at. *)
Definition world_status_error_blind : world := {|
  process_iter := [];
  os_run := os_run world_status_error;
  CGWindowListCopyWindowInfo := None;
  runningApplications := []
|}.

(** The editor is running, a window of the editor is on screen, and the
    [code] command is not installed: every call of [subprocess.run]
    raises [FileNotFoundError]. *)
Definition world_code_missing : world := {|
  process_iter := [Info (Some [electron])];
  os_run := λ _,
    RunRaises FileNotFoundError (lit "[Errno 2] No such file or directory: 'code'");
  CGWindowListCopyWindowInfo := Some [notes_window];
  runningApplications := [501]
|}.

(** * Properties *)

(** ** Evaluations of the library models *)

Example splitlines_ex :
  splitlines (lit "a" ++ [13; 10] ++ lit "b" ++ [10; 10] ++ lit "c" ++ [10])
  = [lit "a"; lit "b"; []; lit "c"].
Proof. vm_compute. reflexivity. Qed.

Example sorted_ex :
  sorted [lit "b"; lit "Welcome"; []; lit "a"] = [[]; lit "Welcome"; lit "a"; lit "b"].
Proof. vm_compute. reflexivity. Qed.

Example of_nat_ex : of_nat 12 = lit "12".
Proof. vm_compute. reflexivity. Qed.

Example strip_ex : strip (lit "  a b  ") = lit "a b".
Proof. vm_compute. reflexivity. Qed.

Example search_ex1 : search (lit "|  Window (a (b) c) d") = Some (lit "a (b) c").
Proof. vm_compute. reflexivity. Qed.

Example search_ex2 : search (lit "| Window x | Window (a)") = Some (lit "a").
Proof. vm_compute. reflexivity. Qed.

Example search_ex3 : search (lit "|Window (a)") = None.
Proof. vm_compute. reflexivity. Qed.

Example quote_ex : shlex_quote (lit "/tmp/a b.txt") = lit "'/tmp/a b.txt'".
Proof. vm_compute. reflexivity. Qed.

Example split_ex : shlex_split (lit "code --status") = [lit "code"; lit "--status"].
Proof. vm_compute. reflexivity. Qed.

(** ** Strings *)

Lemma starts_with_spec (p s : str) :
  starts_with p s = true ↔ ∃ post, s = p ++ post.
Proof.
  revert s. induction p as [|c p IH]; intros s; simpl.
  - split; [intros _; by exists s | done].
  - destruct s as [|d s].
    + split; [done | intros [post H]; discriminate H].
    + rewrite andb_true_iff, N.eqb_eq, IH. split.
      * intros [-> [post ->]]. by exists post.
      * intros [post H]. injection H as -> ->. split; [done | by exists post].
Qed.

Lemma contains_spec (p s : str) :
  contains p s = true ↔ ∃ pre post, s = pre ++ p ++ post.
Proof.
  induction s as [|d s IH].
  - simpl. rewrite orb_false_r, starts_with_spec. split.
    + intros [post H]. by exists [], post.
    + intros (pre & post & H). destruct pre; [by exists post | discriminate H].
  - cbn [contains]. rewrite orb_true_iff, starts_with_spec, IH. split.
    + intros [[post H] | (pre & post & H)].
      * by exists [], post.
      * exists (d :: pre), post. by rewrite H.
    + intros (pre & post & H). destruct pre as [|e pre].
      * left. by exists post.
      * right. injection H as -> ->. by exists pre, post.
Qed.

(** ** The monad *)

Lemma bind_returns {A B} (f : A → M B) tr a :
  mbind f ((tr, Returns a) : M A) = (tr ++ trace (f a), result (f a)).
Proof. unfold mbind, M_bind, trace, result. by destruct (f a). Qed.

Lemma bind_raises {A B} (f : A → M B) tr e :
  mbind f ((tr, Raises e) : M A) = (tr, Raises e).
Proof. done. Qed.

Lemma M_left_id {A B} (f : A → M B) (a : A) : mret a ≫= f = f a.
Proof. unfold mret, M_ret, mbind, M_bind. by destruct (f a). Qed.

Lemma M_eta {A} (m : M A) : m = (trace m, result m).
Proof. by destruct m. Qed.

Lemma trace_bind {A B} (f : A → M B) (m : M A) :
  trace (m ≫= f) =
  trace m ++ match result m with Returns a => trace (f a) | Raises _ => [] end.
Proof.
  destruct m as [tr [a|e]]; unfold trace, mbind, M_bind; simpl.
  - by destruct (f a).
  - by rewrite app_nil_r.
Qed.

Lemma result_bind {A B} (f : A → M B) (m : M A) :
  result (m ≫= f) =
  match result m with Returns a => result (f a) | Raises e => Raises e end.
Proof.
  destruct m as [tr [a|e]]; unfold result, mbind, M_bind; simpl; [|done].
  by destruct (f a).
Qed.

Lemma for_each_continue {A R} (x : A) l (body : A → M (option R)) orelse :
  body x = ([], Returns None) →
  for_each (x :: l) body orelse = for_each l body orelse.
Proof.
  intros H. cbn [for_each]. rewrite H, bind_returns. simpl. apply eq_sym, M_eta.
Qed.

Lemma for_each_return {A R} (x : A) l (body : A → M (option R)) orelse tr v :
  body x = (tr, Returns (Some v)) →
  for_each (x :: l) body orelse = (tr, Returns v).
Proof.
  intros H. cbn [for_each]. rewrite H, bind_returns. simpl. by rewrite app_nil_r.
Qed.

(** ** The process scanner *)

Lemma scan_processes (procs : list proc_info) :
  forallb tolerated procs = true →
  for_each procs
    (λ proc,
       try_except (inspect_process proc)
         (λ e,
            match e with
            | Exception NoSuchProcess _
            | Exception AccessDenied _
            | Exception ZombieProcess _ => Some (mret None)
            | _ => None
            end))
    (mret false)
  = ([], Returns (existsb shows_vscode procs)).
Proof.
  induction procs as [|proc procs IH]; [done|].
  cbn [forallb existsb]. rewrite andb_true_iff. intros [Hp Hps].
  specialize (IH Hps).
  destruct proc as [[[|part parts]|]|cls msg].
  - by rewrite for_each_continue.
  - cbn [shows_vscode].
    destruct (existsb (contains target_pattern) (part :: parts)) eqn:Hm.
    + rewrite (for_each_return _ _ _ _ [] true); [done|].
      unfold inspect_process. by rewrite M_left_id, Hm.
    + rewrite for_each_continue; [done|].
      unfold inspect_process. by rewrite M_left_id, Hm.
  - by rewrite for_each_continue.
  - destruct cls; try discriminate Hp; by rewrite for_each_continue.
Qed.

(** C8. When every entry of the process enumeration can either be read or
    raises one of the three errors of a vanished, access-restricted or
    zombie process, the scanner skips the raising entries, goes through
    the rest and returns a boolean; the boolean is true exactly when some
    entry that could be read has an argument in which the bundle path
    [Visual Studio Code.app] occurs; the scan produces no event at all
    (no output, no sub-process, no activation). *)
Theorem is_vscode_running_tolerant (w : world) :
  forallb tolerated (process_iter w) = true →
  ∃ b : bool,
    is_vscode_running w = ([], Returns b) ∧
    (b = true ↔
     ∃ cmdline part pre post,
       Info (Some cmdline) ∈ process_iter w ∧ part ∈ cmdline ∧
       part = pre ++ target_pattern ++ post).
Proof.
  intros Hw. exists (existsb shows_vscode (process_iter w)). split.
  - by apply scan_processes.
  - rewrite existsb_exists. split.
    + intros (proc & Hin & Hm). destruct proc as [[parts|]|]; try discriminate Hm.
      cbn [shows_vscode] in Hm. apply existsb_exists in Hm as (part & Hpart & Hc).
      apply contains_spec in Hc as (pre & post & ->).
      exists parts, (pre ++ target_pattern ++ post), pre, post.
      by rewrite !list_elem_of_In.
    + intros (cmdline & part & pre & post & Hin & Hpart & ->).
      exists (Info (Some cmdline)). rewrite <- list_elem_of_In. split; [done|].
      cbn [shows_vscode]. apply existsb_exists.
      exists (pre ++ target_pattern ++ post). rewrite <- list_elem_of_In.
      split; [done|]. apply contains_spec. by exists pre, post.
Qed.

(** ** The reuse classifier *)

Lemma find_reusable_result (titles : list str) (ws : gset str) :
  result (find_reusable titles ws) = Returns (existsb (reusable ws) titles).
Proof.
  unfold find_reusable. induction titles as [|t titles IH]; [done|].
  cbn [for_each existsb]. rewrite result_bind. unfold reusable at 1.
  destruct (decide (t = welcome)) as [Ht|Ht].
  - rewrite bool_decide_eq_false_2 by (by intros H; apply H). exact IH.
  - rewrite bool_decide_eq_true_2 by done.
    destruct (decide (t ∉ ws)) as [Hw|Hw].
    + by rewrite bool_decide_eq_true_2.
    + rewrite bool_decide_eq_false_2 by done. exact IH.
Qed.

Lemma elem_of_sorted (l : list str) (t : str) : t ∈ sorted l ↔ t ∈ l.
Proof. unfold sorted. by rewrite merge_sort_Permutation. Qed.

Lemma classify_result (onscreen workspace : list str) :
  result (classify (PyList onscreen) workspace)
  = Returns (existsb (reusable (list_to_set (sorted workspace))) (sorted onscreen)).
Proof.
  unfold classify, py_sorted. rewrite M_left_id, !result_bind.
  cbn [log_debug emit result snd]. apply find_reusable_result.
Qed.

Lemma existsb_reusable (titles : list str) (ws : gset str) :
  existsb (reusable ws) titles = true ↔
  ∃ t, t ∈ titles ∧ (t ∉ ws) ∧ t ≠ welcome.
Proof.
  rewrite existsb_exists. unfold reusable. split.
  - intros (t & Hin & Ht). apply andb_true_iff in Ht as [H1 H2].
    apply bool_decide_eq_true_1 in H1, H2. exists t. by rewrite list_elem_of_In.
  - intros (t & Hin & Hw & Ht). exists t. rewrite <- list_elem_of_In.
    split; [done|]. by rewrite !bool_decide_eq_true_2.
Qed.

Lemma classify_true_iff (onscreen workspace : list str) :
  existsb (reusable (list_to_set (sorted workspace))) (sorted onscreen) = true ↔
  ∃ t, t ∈ onscreen ∧ (t ∉ workspace) ∧ t ≠ welcome.
Proof.
  rewrite existsb_reusable. split.
  - intros (t & Hin & Hw & Ht). exists t.
    rewrite elem_of_sorted in Hin.
    rewrite elem_of_list_to_set, elem_of_sorted in Hw. done.
  - intros (t & Hin & Hw & Ht). exists t.
    by rewrite elem_of_sorted, elem_of_list_to_set, elem_of_sorted.
Qed.

(** C1. On every list of on-screen titles and every list of workspace
    titles the classifier returns a boolean, and the boolean is true
    exactly when some on-screen title is not a workspace title and is not
    [Welcome]; it is true on on-screen [A], [Welcome] with no workspace
    title, false on on-screen [Welcome] with no workspace title, and false
    on on-screen [A] with workspace title [A]. *)
Theorem classify_reusable_iff :
  (∀ onscreen workspace : list str,
     ∃ b : bool,
       result (classify (PyList onscreen) workspace) = Returns b ∧
       (b = true ↔ ∃ t, t ∈ onscreen ∧ (t ∉ workspace) ∧ t ≠ lit "Welcome")) ∧
  result (classify (PyList [lit "A"; lit "Welcome"]) []) = Returns true ∧
  result (classify (PyList [lit "Welcome"]) []) = Returns false ∧
  result (classify (PyList [lit "A"]) [lit "A"]) = Returns false.
Proof.
  split; [|by vm_compute].
  intros onscreen workspace. eexists. split; [apply classify_result|].
  apply classify_true_iff.
Qed.

(** C9. The boolean of the classifier is a function of the two sets of
    titles: two runs on lists that hold the same on-screen titles and the
    same workspace titles, in whatever order and with whatever repetition,
    return the same boolean. *)
Theorem classify_deterministic (onscreen1 onscreen2 workspace1 workspace2 : list str) :
  (∀ t, t ∈ onscreen1 ↔ t ∈ onscreen2) →
  (∀ t, t ∈ workspace1 ↔ t ∈ workspace2) →
  result (classify (PyList onscreen1) workspace1)
  = result (classify (PyList onscreen2) workspace2).
Proof.
  intros Ho Hw. rewrite !classify_result. f_equal.
  apply eq_true_iff_eq. rewrite !classify_true_iff.
  split; intros (t & Hin & Hws & Ht); exists t.
  - by rewrite <- Ho, <- Hw.
  - by rewrite Ho, Hw.
Qed.

Lemma classify_deterministic_witness :
  result (classify (PyList [lit "B"; lit "A"; lit "B"]) [lit "W"; lit "W"])
  = result (classify (PyList [lit "A"; lit "B"]) [lit "W"]).
Proof.
  apply classify_deterministic; intros t;
    rewrite !elem_of_cons, !elem_of_nil; tauto.
Defined.

(** ** The pattern, declaratively

    On a text without a newline, as every line of [splitlines] is, the
    matcher is characterised by the shape of the text. *)

Lemma group_none_iff (s : str) :
  10 ∉ s → group_before_last_paren s = None ↔ 41 ∉ s.
Proof.
  induction s as [|c s IH]; intros Hnl.
  - split; [intros _; apply not_elem_of_nil | done].
  - apply not_elem_of_cons in Hnl as [Hc Hs]. specialize (IH Hs).
    cbn [group_before_last_paren].
    destruct (N.eqb_spec c 10) as [->|_]; [done|].
    rewrite not_elem_of_cons.
    destruct (group_before_last_paren s) as [g|].
    + split; [done|]. intros [_ H]. by apply IH in H.
    + destruct (N.eqb_spec c 41) as [->|Hc41].
      * split; [done | by intros [H _]].
      * split; [|done]. intros _. split; [congruence | by apply IH].
Qed.

Lemma group_some (s g : str) :
  10 ∉ s → group_before_last_paren s = Some g →
  ∃ post, s = g ++ 41 :: post ∧ 41 ∉ post.
Proof.
  revert g. induction s as [|c s IH]; intros g Hnl; [done|].
  apply not_elem_of_cons in Hnl as [Hc Hs].
  cbn [group_before_last_paren].
  destruct (N.eqb_spec c 10) as [->|_]; [done|].
  destruct (group_before_last_paren s) as [g'|] eqn:Hg.
  - intros [= <-]. destruct (IH g' Hs eq_refl) as (post & -> & Hp).
    by exists post.
  - destruct (N.eqb_spec c 41) as [->|_]; [|done].
    intros [= <-]. exists s. split; [done|]. by apply group_none_iff.
Qed.

Lemma last_paren_unique (g g' post post' : str) :
  g ++ 41 :: post = g' ++ 41 :: post' → 41 ∉ post → 41 ∉ post' → g = g'.
Proof.
  revert g'. induction g as [|c g IH]; intros [|c' g'] H Hp Hp'; [done| | |].
  - injection H as <- ->. exfalso. apply Hp. rewrite elem_of_app, elem_of_cons. auto.
  - injection H as -> <-. exfalso. apply Hp'. rewrite elem_of_app, elem_of_cons. auto.
  - injection H as -> H. f_equal. by apply (IH g').
Qed.

(** The group is the text before the last closing parenthesis. *)
Lemma group_spec (s g : str) :
  10 ∉ s →
  group_before_last_paren s = Some g ↔ ∃ post, s = g ++ 41 :: post ∧ 41 ∉ post.
Proof.
  intros Hnl. split; [by apply group_some|].
  intros (post & Hs & Hp).
  destruct (group_before_last_paren s) as [g'|] eqn:Hg.
  - destruct (group_some s g' Hnl Hg) as (post' & Hs' & Hp').
    f_equal. rewrite Hs in Hs'. by apply eq_sym, (last_paren_unique _ _ _ _ Hs').
  - apply group_none_iff in Hg; [|done]. exfalso. apply Hg.
    rewrite Hs, elem_of_app, elem_of_cons. auto.
Qed.

Lemma lstrip_spaces (ws rest : str) :
  forallb is_space ws = true →
  match rest with [] => True | c :: _ => is_space c = false end →
  lstrip (ws ++ rest) = rest.
Proof.
  intros Hws Hr. induction ws as [|c ws IH].
  - destruct rest as [|c rest]; [done|]. cbn. by rewrite Hr.
  - cbn in Hws. apply andb_true_iff in Hws as [Hc Hws].
    cbn. rewrite Hc. by apply IH.
Qed.

Lemma lstrip_split (s : str) :
  ∃ ws, s = ws ++ lstrip s ∧ forallb is_space ws = true.
Proof.
  induction s as [|c s (ws & Hs & Hws)]; [by exists []|].
  cbn [lstrip]. destruct (is_space c) eqn:Hc.
  - exists (c :: ws). cbn. rewrite Hc. split; [by f_equal | done].
  - by exists [].
Qed.

(** A match at the head of a line: a bar, a non-empty run of spaces, the
    text [Window (], the group, and the last closing parenthesis. *)
Lemma match_here_spec (s g : str) :
  10 ∉ s →
  match_here s = Some g ↔
  ∃ ws post,
    s = 124 :: ws ++ lit "Window (" ++ g ++ 41 :: post ∧
    ws ≠ [] ∧ forallb is_space ws = true ∧ 41 ∉ post.
Proof.
  intros Hnl. split.
  - destruct s as [|c [|d s1]]; try done; cbn [match_here].
    { by destruct (c =? 124). }
    destruct (N.eqb_spec c 124) as [->|_]; [|done].
    destruct (is_space d) eqn:Hd; [|done].
    destruct (lstrip_split (d :: s1)) as (ws & Hs & Hws).
    destruct (starts_with (lit "Window (") (lstrip (d :: s1))) eqn:Hw; [|done].
    apply starts_with_spec in Hw as [r Hr]. rewrite Hr in Hs |- *. intros Hg.
    change (drop 8 (lit "Window (" ++ r)) with r in Hg.
    apply group_some in Hg as (post & -> & Hp).
    + exists ws, post. rewrite Hs. repeat split; try done.
      intros ->. injection Hs as -> _. by vm_compute in Hd.
    + intros Hin. apply Hnl. rewrite Hs.
      rewrite elem_of_cons, !elem_of_app. auto.
  - intros (ws & post & -> & Hne & Hws & Hp).
    destruct ws as [|d ws]; [done|]. cbn [match_here app].
    change (124 =? 124) with true. cbv iota.
    pose proof Hws as Hws'. cbn in Hws'. apply andb_true_iff in Hws' as [Hd _].
    rewrite Hd.
    change (d :: ws ++ lit "Window (" ++ g ++ 41 :: post)
      with ((d :: ws) ++ lit "Window (" ++ g ++ 41 :: post).
    rewrite lstrip_spaces; [|done|by vm_compute].
    change (starts_with (lit "Window (") (lit "Window (" ++ g ++ 41 :: post))
      with true. cbv iota.
    change (drop 8 (lit "Window (" ++ g ++ 41 :: post)) with (g ++ 41 :: post).
    apply group_spec; [|by exists post].
    intros Hin. apply Hnl. rewrite elem_of_cons, !elem_of_app.
    rewrite elem_of_app in Hin. tauto.
Qed.

(** [search] returns the group of the leftmost position with a match. *)
Lemma search_spec (s g : str) :
  search s = Some g ↔
  ∃ pre rest,
    s = pre ++ rest ∧ match_here rest = Some g ∧
    ∀ k : nat, (k < length pre)%nat → match_here (drop k s) = None.
Proof.
  induction s as [|c s IH].
  - cbn. split; [done|]. intros (pre & rest & H & Hm & _).
    symmetry in H. apply app_eq_nil in H as [_ ->]. done.
  - cbn [search]. destruct (match_here (c :: s)) as [g'|] eqn:Hm.
    + split.
      * intros [= ->]. exists [], (c :: s). repeat split; [done|].
        intros k Hk. cbn in Hk. lia.
      * intros (pre & rest & H & Hr & Hl). destruct pre as [|d pre].
        -- cbn in H. subst rest. congruence.
        -- assert (H0 : match_here (drop 0 (c :: s)) = None)
             by (apply Hl; cbn; lia).
           change (drop 0 (c :: s)) with (c :: s) in H0. congruence.
    + rewrite IH. split.
      * intros (pre & rest & -> & Hr & Hl). exists (c :: pre), rest.
        repeat split; [done|]. intros [|k] Hk.
        -- exact Hm.
        -- change (drop (S k) (c :: pre ++ rest)) with (drop k (pre ++ rest)).
           apply Hl. cbn in Hk. lia.
      * intros (pre & rest & H & Hr & Hl). destruct pre as [|d pre].
        -- cbn in H. subst rest. congruence.
        -- injection H as -> ->. exists pre, rest. repeat split; [done|].
           intros k Hk. apply (Hl (S k)). cbn. lia.
Qed.

(** ** The status parser *)

Lemma hit_nil b t : ¬ hit b [] t.
Proof. intros (j & line & g & H & _). by rewrite lookup_nil in H. Qed.

Lemma hit_cons b line rest t :
  hit b (line :: rest) t ↔
  if contains marker line then hit true rest t
  else (b = true ∧ ∃ g, search line = Some g ∧ t = strip g) ∨ hit b rest t.
Proof.
  split.
  - intros (j & line' & g & Hj & Hm & Hs & Ht & Hb). destruct j as [|j].
    + injection Hj as ->. rewrite Hm. left. split; [|by exists g].
      destruct Hb as [Hb | (i & _ & Hi & _)]; [done | lia].
    + cbn in Hj. destruct (contains marker line) eqn:Hl.
      * exists j, line', g. repeat split; auto.
      * right. exists j, line', g. repeat split; try done.
        destruct Hb as [Hb | (i & mline & Hi & Hmi & Hmm)]; [by left | right].
        destruct i as [|i]; [cbn in Hmi; congruence|].
        exists i, mline. repeat split; (lia || done).
  - destruct (contains marker line) eqn:Hl.
    + intros (j & line' & g & Hj & Hm & Hs & Ht & _).
      exists (S j), line', g. repeat split; try done.
      right. exists 0%nat, line. repeat split; (lia || done).
    + intros [[Hb (g & Hs & Ht)] | (j & line' & g & Hj & Hm & Hs & Ht & Hb)].
      * exists 0%nat, line, g. repeat split; auto.
      * exists (S j), line', g. repeat split; try done.
        destruct Hb as [Hb | (i & mline & Hi & Hmi & Hmm)]; [by left | right].
        exists (S i), mline. repeat split; (lia || done).
Qed.

Lemma scan_status_spec (b : bool) (lines acc : list str) (t : str) :
  t ∈ scan_status b lines acc ↔ t ∈ acc ∨ hit b lines t.
Proof.
  revert b acc. induction lines as [|line rest IH]; intros b acc.
  - cbn. pose proof (hit_nil b t). tauto.
  - cbn [scan_status]. rewrite hit_cons.
    destruct (contains marker line); [apply IH|].
    destruct b.
    + destruct (search line) as [g|] eqn:Hs; rewrite IH.
      * rewrite elem_of_app, list_elem_of_singleton. split.
        -- intros [[H | ->] | H]; [by left | | by auto].
           right. left. split; [done | by exists g].
        -- intros [H | [[_ (g' & Hg & ->)] | H]]; [by auto | | by auto].
           injection Hg as ->. by auto.
      * split; [by intuition|].
        intros [H | [[_ (g' & Hg & _)] | H]]; [by auto | done | by auto].
    + rewrite IH. split; [by intuition|].
      intros [H | [[Hb _] | H]]; [by auto | done | by auto].
Qed.

Lemma hit_false_captured lines t : hit false lines t ↔ captured lines t.
Proof.
  split.
  - intros (j & line & g & Hj & Hm & Hs & Ht & [Hb | (i & mline & Hi & Hmi & Hmm)]);
      [done|].
    by exists i, j, mline, line, g.
  - intros (i & j & mline & line & g & Hmi & Hmm & Hi & Hj & Hm & Hs & Ht).
    exists j, line, g. repeat split; try done. right. by exists i, mline.
Qed.

(** C2, as amended. For every status output and every title, the parser
    captures the title exactly when it is the trimmed group of a line that
    matches the pattern, does not itself hold the marker [Workspace Stats:],
    and comes after a line that holds the marker; a matching line before
    the first marker line contributes nothing, and the output with
    [| Window (foo)] before the marker and [| Window (bar)] after it gives
    the one title [bar]. *)
Theorem parse_workspace_titles_captured :
  (∀ (status_output : str) (t : str),
     t ∈ parse_workspace_titles status_output ↔
     captured (splitlines status_output) t) ∧
  parse_workspace_titles status_example = [lit "bar"].
Proof.
  split; [|by vm_compute].
  intros status_output t. unfold parse_workspace_titles.
  rewrite scan_status_spec, <- hit_false_captured, elem_of_nil. tauto.
Qed.

(** C2, as worded, fails: a line after the marker line that matches the
    pattern and whose title holds the marker text is not captured. *)
Lemma parse_workspace_titles_marker_title :
  ¬ (∀ t, t ∈ parse_workspace_titles marker_title_example ↔
          captured_as_worded (splitlines marker_title_example) t).
Proof.
  intros H. specialize (H (lit "Workspace Stats: x")).
  assert (Hp : parse_workspace_titles marker_title_example = []) by (by vm_compute).
  rewrite Hp, elem_of_nil in H. apply H.
  exists 0%nat, 1%nat, (lit "Workspace Stats:"), (lit "| Window (Workspace Stats: x)"),
    (lit "Workspace Stats: x").
  repeat split; (lia || by vm_compute).
Qed.

(** ** Lines *)

Lemma forallb_rev {A} (p : A → bool) (l : list A) :
  forallb p (rev l) = forallb p l.
Proof.
  induction l as [|x l IH]; [done|].
  cbn [rev forallb]. rewrite forallb_app, IH. cbn. rewrite andb_true_r.
  apply andb_comm.
Qed.

Lemma splitlines_from_lines (n : nat) (s cur line : str) :
  (length s ≤ n)%nat →
  forallb (λ c, negb (is_linebreak c)) cur = true →
  line ∈ splitlines_from cur s →
  forallb (λ c, negb (is_linebreak c)) line = true.
Proof.
  revert s cur. induction n as [|n IH]; intros s cur Hn Hcur.
  - destruct s; [|cbn in Hn; lia]. cbn. destruct cur as [|c cur].
    + by intros ?%elem_of_nil.
    + intros ->%list_elem_of_singleton. by rewrite forallb_rev.
  - destruct s as [|c rest].
    + cbn. destruct cur as [|d cur].
      * by intros ?%elem_of_nil.
      * intros ->%list_elem_of_singleton. by rewrite forallb_rev.
    + cbn in Hn. cbn [splitlines_from].
      destruct (is_linebreak c) eqn:Hc.
      * intros [->|Hin]%elem_of_cons; [by rewrite forallb_rev|].
        destruct rest as [|d rest'].
        -- by apply elem_of_nil in Hin.
        -- destruct ((c =? 13) && (d =? 10)).
           ++ apply (IH rest' []); [cbn in Hn; lia | done | done].
           ++ apply (IH (d :: rest') []); [lia | done | done].
      * apply IH; [lia|]. cbn. by rewrite Hc.
Qed.

(** No line of [splitlines] holds a line boundary; in particular none
    holds a newline, so that the dot of the pattern matches any character
    of a line. *)
Lemma splitlines_no_newline (s line : str) :
  line ∈ splitlines s → 10 ∉ line.
Proof.
  intros Hin Hnl.
  pose proof (splitlines_from_lines (length s) s [] line (le_n _) eq_refl Hin) as H.
  rewrite forallb_forall in H. apply list_elem_of_In in Hnl.
  by specialize (H _ Hnl).
Qed.

(** A line of the status output that the pattern matches has the shape
    the pattern describes, and the group is what stands between the
    opening parenthesis and the last closing one. *)
Lemma search_line_shape (status_output line g : str) :
  line ∈ splitlines status_output → search line = Some g →
  ∃ pre ws post,
    line = pre ++ 124 :: ws ++ lit "Window (" ++ g ++ 41 :: post ∧
    ws ≠ [] ∧ forallb is_space ws = true ∧ 41 ∉ post.
Proof.
  intros Hin Hs. apply splitlines_no_newline in Hin.
  apply search_spec in Hs as (pre & rest & -> & Hm & _).
  apply match_here_spec in Hm as (ws & post & -> & Hws).
  - by exists pre, ws, post.
  - intros Hnl. apply Hin. rewrite elem_of_app. by right.
Qed.

(** ** The status command *)

Lemma run_command_status (w : world) :
  run_command w (lit "code --status") =
  match os_run w status_argv with
  | Completed out err rc => ([Spawn status_argv], Returns (out, err, rc))
  | RunRaises FileNotFoundError _ =>
      ([Spawn status_argv; LogDebug (lit "Command not found: code")],
       Returns ([], lit "Command not found: code", 127%Z))
  | RunRaises _ msg =>
      ([Spawn status_argv;
        LogDebug (lit "An unexpected error occurred while running 'code --status': "
                    ++ msg)],
       Returns ([], msg, 1%Z))
  end.
Proof.
  unfold run_command, subprocess_run.
  change (shlex_split (lit "code --status")) with status_argv.
  change (split (lit "code --status")) with status_argv.
  destruct (os_run w status_argv) as [out err rc|[] msg]; reflexivity.
Qed.

Lemma run_command_status_retcode (w : world) :
  ∃ out err,
    result (run_command w (lit "code --status")) = Returns (out, err, status_retcode w).
Proof.
  rewrite run_command_status. unfold status_retcode.
  destruct (os_run w status_argv) as [out err rc|[] msg]; by eexists _, _.
Qed.

Section Status.

Variable lower : str → str.

Lemma find_reusable_window_failed (w : world) :
  status_retcode w ≠ 0%Z →
  result (find_reusable_window_from_status lower w) = Returns false.
Proof.
  unfold find_reusable_window_from_status, status_retcode.
  rewrite run_command_status.
  destruct (os_run w status_argv) as [out err rc|[] msg]; intros Hrc;
    rewrite bind_returns; cbn [result snd];
    (destruct (decide _) as [_|Hd]; [done | by destruct Hd]).
Qed.

Lemma find_reusable_window_ran (w : world) out err :
  os_run w status_argv = Completed out err 0 →
  find_reusable_window_from_status lower w =
  (emit (Spawn status_argv);;
   all_window_titles ← get_vscode_window_names_cg lower w;
   classify all_window_titles (parse_workspace_titles out)).
Proof.
  intros H. unfold find_reusable_window_from_status.
  rewrite run_command_status, H. unfold emit.
  rewrite !bind_returns. cbn [trace result fst snd]. done.
Qed.

End Status.

(** C4. Whenever [run_command] reports a return code other than 0 for the
    status command, [find_reusable_window_from_status] returns [False] and
    raises nothing; when the command is missing ([subprocess.run] raises
    [FileNotFoundError]) the reported code is 127, and the answer is
    [False] as well. *)
Theorem status_failure_means_no_reusable_window (lower : str → str) (w : world) :
  (∀ out err rc,
     result (run_command w (lit "code --status")) = Returns (out, err, rc) →
     rc ≠ 0%Z →
     result (find_reusable_window_from_status lower w) = Returns false) ∧
  (∀ msg,
     os_run w status_argv = RunRaises FileNotFoundError msg →
     (∃ out err,
        result (run_command w (lit "code --status")) = Returns (out, err, 127%Z)) ∧
     result (find_reusable_window_from_status lower w) = Returns false).
Proof.
  split.
  - intros out err rc Hrun Hrc. apply find_reusable_window_failed.
    destruct (run_command_status_retcode w) as (out' & err' & Hrun').
    rewrite Hrun in Hrun'. by injection Hrun' as _ _ <-.
  - intros msg Hos. split.
    + rewrite run_command_status, Hos. by eexists _, _.
    + apply find_reusable_window_failed. unfold status_retcode. by rewrite Hos.
Qed.

(** ** The window enumerator *)

Section Enumerator.

Variable lower : str → str.

Lemma filter_m_owned (windows : list cg_window) :
  forallb has_owner windows = true →
  filter_m (owned_by_code lower) windows
  = ([], Returns (List.filter (code_owner lower) windows)).
Proof.
  induction windows as [|win windows IH]; [done|].
  cbn [forallb]. rewrite andb_true_iff. intros [Hwin Hrest].
  cbn [filter_m List.filter]. rewrite (IH Hrest).
  unfold owned_by_code, code_owner, has_owner in *.
  destruct (kCGWindowOwnerName win) as [name|].
  - rewrite M_left_id. reflexivity.
  - apply bool_decide_eq_true_1 in Hwin. by destruct Hwin.
Qed.

Lemma get_vscode_window_names_cg_result (w : world) (windows : list cg_window) :
  CGWindowListCopyWindowInfo w = Some windows →
  forallb has_owner windows = true →
  result (get_vscode_window_names_cg lower w)
  = Returns match List.filter (code_owner lower) windows with
            | [] => PyFalse
            | _ :: _ => PyList (window_title <$> List.filter (code_owner lower) windows)
            end.
Proof.
  intros Hw Hown. unfold get_vscode_window_names_cg.
  rewrite Hw, M_left_id, (filter_m_owned _ Hown), bind_returns.
  cbn [result snd]. rewrite result_bind. cbn [log_debug emit result snd].
  by destruct (List.filter (code_owner lower) windows).
Qed.

(** C10. When every window of the compositor list has an owner name, a
    window of the editor whose title is absent or empty gets the empty
    string as its title in the enumeration result; and when the status
    command ran with return code 0 and the empty string is not among
    the parsed workspace titles, the classification returns [True]. *)
Theorem untitled_window_is_reusable (w : world) (windows : list cg_window)
    (win : cg_window) :
  CGWindowListCopyWindowInfo w = Some windows →
  forallb has_owner windows = true →
  win ∈ windows →
  code_owner lower win = true →
  kCGWindowName win = None ∨ kCGWindowName win = Some [] →
  window_title win = [] ∧
  (∃ titles,
     result (get_vscode_window_names_cg lower w) = Returns (PyList titles) ∧
     [] ∈ titles) ∧
  (∀ out err,
     os_run w status_argv = Completed out err 0 →
     [] ∉ parse_workspace_titles out →
     result (find_reusable_window_from_status lower w) = Returns true).
Proof.
  intros Hw Hown Hin Hcode Hname.
  assert (Ht : window_title win = []).
  { unfold window_title. by destruct Hname as [-> | ->]. }
  assert (Hf : win ∈ List.filter (code_owner lower) windows).
  { apply list_elem_of_In, filter_In. by rewrite <- list_elem_of_In. }
  assert (Hg : result (get_vscode_window_names_cg lower w)
               = Returns (PyList (window_title <$> List.filter (code_owner lower) windows))).
  { rewrite (get_vscode_window_names_cg_result w windows Hw Hown).
    destruct (List.filter (code_owner lower) windows); [|done].
    by apply elem_of_nil in Hf. }
  assert (He : [] ∈ window_title <$> List.filter (code_owner lower) windows).
  { rewrite <- Ht. by apply list_elem_of_fmap_2. }
  split; [done|]. split; [by eexists|].
  intros out err Hos Hws.
  rewrite (find_reusable_window_ran lower w out err Hos).
  rewrite result_bind. cbn [emit result snd]. rewrite result_bind, Hg.
  rewrite classify_result. f_equal. apply classify_true_iff.
  exists []. done.
Qed.

End Enumerator.

(** ** Invariants of computations *)

Section Sat.

Context (P : event → Prop) (Q : exn → Prop).

Lemma sat_ret {A} (a : A) : sat P Q (mret a).
Proof. split; [constructor | done]. Qed.

Lemma sat_raise {A} (e : exn) : Q e → sat P Q (raise e : M A).
Proof. intros He. split; [constructor|]. by intros e' [= <-]. Qed.

Lemma sat_emit (ev : event) : P ev → sat P Q (emit ev).
Proof. intros Hev. split; [by repeat constructor | done]. Qed.

Lemma sat_bind {A B} (m : M A) (f : A → M B) :
  sat P Q m → (∀ a, result m = Returns a → sat P Q (f a)) → sat P Q (m ≫= f).
Proof.
  intros [Ht Hr] Hf. split.
  - rewrite trace_bind, Forall_app. split; [done|].
    destruct (result m) as [a|e]; [by apply Hf | constructor].
  - intros e. rewrite result_bind.
    destruct (result m) as [a|e'] eqn:Hm; [by apply Hf|].
    intros [= <-]. by apply Hr.
Qed.

Lemma sat_try_except {A} (m : M A) (h : exn → option (M A)) :
  sat P Q m → (∀ e k, h e = Some k → sat P Q k) → sat P Q (try_except m h).
Proof.
  destruct m as [tr [a|e]]; intros [Ht Hr] Hh; [done|].
  unfold try_except. destruct (h e) as [k|] eqn:He; [|done].
  destruct (Hh e k He) as [Hkt Hkr]. destruct k as [tr' r].
  split; [by apply Forall_app | exact Hkr].
Qed.

Lemma sat_for_each {A R} (l : list A) (body : A → M (option R)) (orelse : M R) :
  (∀ x, sat P Q (body x)) → sat P Q orelse → sat P Q (for_each l body orelse).
Proof.
  intros Hb Ho. induction l as [|x l IH]; [done|].
  cbn [for_each]. apply sat_bind; [done|].
  intros [v|] _; [apply sat_ret | done].
Qed.

Lemma sat_filter_m {A} (p : A → M bool) (l : list A) :
  (∀ x, sat P Q (p x)) → sat P Q (filter_m p l).
Proof.
  intros Hp. induction l as [|x l IH]; [apply sat_ret|].
  cbn [filter_m]. apply sat_bind; [done|]. intros b _.
  apply sat_bind; [done|]. intros rest _. apply sat_ret.
Qed.

End Sat.

Lemma sat_mono {A} (P P' : event → Prop) (Q Q' : exn → Prop) (m : M A) :
  (∀ ev, P ev → P' ev) → (∀ e, Q e → Q' e) → sat P Q m → sat P' Q' m.
Proof.
  intros HP HQ [Ht Hr]. split; [by eapply Forall_impl | by auto].
Qed.

Lemma sat_log_debug P Q msg : P (LogDebug msg) → sat P Q (log_debug msg).
Proof. apply sat_emit. Qed.

Lemma sat_subprocess_run P Q w argv :
  P (Spawn argv) → (∀ cls msg, Q (Exception cls msg)) →
  sat P Q (subprocess_run w argv).
Proof.
  intros HP HQ. unfold subprocess_run. apply sat_bind; [by apply sat_emit|].
  intros _ _. destruct (os_run w argv); [apply sat_ret | by apply sat_raise].
Qed.

(** The scan writes nothing, starts nothing and never exits the program. *)
Lemma is_vscode_running_sat (w : world) :
  sat (λ _, False) is_exception (is_vscode_running w).
Proof.
  unfold is_vscode_running. apply sat_for_each; [|apply sat_ret].
  intros proc. apply sat_try_except.
  - unfold inspect_process. apply sat_bind.
    + destruct proc; [apply sat_ret | by apply sat_raise].
    + intros [[|part parts]|] _; try apply sat_ret.
      destruct (existsb _ _); apply sat_ret.
  - intros [code|[] msg] k; intros [= <-]; apply sat_ret.
Qed.

Lemma is_vscode_running_silent (w : world) : trace (is_vscode_running w) = [].
Proof.
  destruct (is_vscode_running_sat w) as [H _].
  destruct (trace (is_vscode_running w)) as [|ev tr]; [done|].
  by apply Forall_cons in H as [[] _].
Qed.

Lemma find_reusable_sat (titles : list str) (ws : gset str) :
  sat benign is_exception (find_reusable titles ws).
Proof.
  unfold find_reusable. apply sat_for_each.
  - intros t. destruct (decide _); [|destruct (decide _)].
    + apply sat_bind; [by apply sat_log_debug | intros; apply sat_ret].
    + apply sat_bind; [by apply sat_log_debug | intros; apply sat_ret].
    + apply sat_ret.
  - apply sat_bind; [by apply sat_log_debug | intros; apply sat_ret].
Qed.

Lemma classify_sat (v : titles_or_false) (workspace : list str) :
  sat benign is_exception (classify v workspace).
Proof.
  unfold classify. apply sat_bind.
  - destruct v; [by apply sat_raise | apply sat_ret].
  - intros l _. apply sat_bind; [by apply sat_log_debug|]. intros _ _.
    apply sat_bind; [by apply sat_log_debug|]. intros _ _.
    apply find_reusable_sat.
Qed.

Lemma run_command_status_sat (w : world) :
  sat benign is_exception (run_command w (lit "code --status")).
Proof.
  rewrite run_command_status.
  destruct (os_run w status_argv) as [out err rc|[] msg];
    (split; [by repeat constructor | done]).
Qed.

Section Classification.

Variable lower : str → str.

Lemma get_vscode_window_names_cg_sat (w : world) :
  sat benign is_exception (get_vscode_window_names_cg lower w).
Proof.
  unfold get_vscode_window_names_cg. apply sat_bind.
  - destruct (CGWindowListCopyWindowInfo w); [apply sat_ret | by apply sat_raise].
  - intros windows _. apply sat_bind.
    + apply sat_filter_m. intros win. unfold owned_by_code.
      destruct (kCGWindowOwnerName win); [apply sat_ret | by apply sat_raise].
    + intros l _. apply sat_bind; [by apply sat_log_debug|].
      intros _ _. destruct l; apply sat_ret.
Qed.

Lemma find_reusable_window_from_status_sat (w : world) :
  sat benign is_exception (find_reusable_window_from_status lower w).
Proof.
  unfold find_reusable_window_from_status.
  apply sat_bind; [apply run_command_status_sat|].
  intros [[out err] rc] _. destruct (decide _).
  - apply sat_bind; [by apply sat_log_debug | intros; apply sat_ret].
  - apply sat_bind; [apply get_vscode_window_names_cg_sat|].
    intros v _. apply classify_sat.
Qed.

End Classification.

(** ** The launcher *)

Lemma benign_not_launch ev : benign ev → ¬ is_launch ev.
Proof.
  destruct ev as [msg|msg|argv|pid]; cbn [benign is_launch]; try tauto.
  intros Ha. subst argv. intros [_ [H|H]]; discriminate H.
Qed.

Lemma printed_benign tr : Forall benign tr → printed tr = [].
Proof.
  induction 1 as [|ev tr Hev _ IH]; [done|].
  destruct ev; try done; exact IH.
Qed.

Lemma printed_app tr1 tr2 : printed (tr1 ++ tr2) = printed tr1 ++ printed tr2.
Proof. apply omap_app. Qed.

Section Launcher.

Variable lower : str → str.

Lemma is_vscode_running_eta (w : world) (running : bool) :
  result (is_vscode_running w) = Returns running →
  is_vscode_running w = ([], Returns running).
Proof.
  intros H. pose proof (is_vscode_running_silent w) as Ht.
  destruct (is_vscode_running w) as [tr r].
  unfold trace, result in *. cbn [fst snd] in *. by subst.
Qed.

Lemma main_scan_raises (w : world) files e :
  result (is_vscode_running w) = Raises e →
  main lower w files = ([], Raises e).
Proof.
  intros H. pose proof (is_vscode_running_silent w) as Ht. unfold main.
  destruct (is_vscode_running w) as [tr r].
  unfold trace, result in *. cbn [fst snd] in *. by subst.
Qed.

(** The editor is not running (lines 211 to 218). *)
Lemma main_not_running (w : world) (files_to_open : list str) :
  result (is_vscode_running w) = Returns false →
  main lower w files_to_open =
  match files_to_open with
  | [] =>
      ([LogDebug (lit "No VSCode process running.");
        Print (lit "VSCode is not running.")],
       Raises (SystemExit 0))
  | _ :: _ =>
      ([LogDebug (lit "No VSCode process running.");
        LogDebug (lit "Opening files in a new window.");
        Spawn (new_window_argv files_to_open)],
       after_launch w (new_window_argv files_to_open))
  end.
Proof.
  intros H. unfold main. rewrite (is_vscode_running_eta w false H).
  rewrite bind_returns. cbn [negb]. destruct files_to_open as [|f fs]; [done|].
  unfold subprocess_run, after_launch.
  by destruct (os_run w (new_window_argv (f :: fs))).
Qed.

Lemma main_classification_raises (w : world) files e :
  result (is_vscode_running w) = Returns true →
  result (find_reusable_window_from_status lower w) = Raises e →
  main lower w files
  = (trace (find_reusable_window_from_status lower w), Raises e).
Proof.
  intros Hr Hf. unfold main. rewrite (is_vscode_running_eta w true Hr).
  rewrite bind_returns. cbn [negb].
  destruct (find_reusable_window_from_status lower w) as [tr1 r1].
  unfold trace, result in *. cbn [fst snd] in *. subst r1.
  reflexivity.
Qed.

(** The editor is running and no file was asked for (lines 220 to 227). *)
Lemma main_query_only (w : world) (reusable_window_exists : bool) :
  result (is_vscode_running w) = Returns true →
  result (find_reusable_window_from_status lower w) = Returns reusable_window_exists →
  main lower w []
  = (trace (find_reusable_window_from_status lower w)
       ++ [Print (verdict reusable_window_exists)],
     Raises (SystemExit 0)).
Proof.
  intros Hr Hf. unfold main. rewrite (is_vscode_running_eta w true Hr).
  rewrite bind_returns. cbn [negb].
  destruct (find_reusable_window_from_status lower w) as [tr1 r1].
  unfold trace, result in *. cbn [fst snd] in *. subst r1.
  by destruct reusable_window_exists.
Qed.

(** The editor is running and files were asked for (lines 220 to 244). *)
Lemma main_launch (w : world) (reusable_window_exists : bool) f fs :
  result (is_vscode_running w) = Returns true →
  result (find_reusable_window_from_status lower w) = Returns reusable_window_exists →
  main lower w (f :: fs)
  = (trace (find_reusable_window_from_status lower w)
       ++ (if reusable_window_exists then
             [LogDebug (lit "Decision: A reusable non-workspace window exists. Activating and reusing.");
              Print (lit "Opening files in a reused VSCode window: "
                       ++ join (lit " ") (shlex_quote <$> f :: fs))]
             ++ trace (activate_vscode w)
             ++ [Spawn (reuse_window_argv (f :: fs))]
           else
             [LogDebug (lit "Decision: No suitable non-workspace window found. Opening in a new window.");
              Print (lit "Opening files in a new VSCode window: "
                       ++ join (lit " ") (shlex_quote <$> f :: fs));
              Spawn (new_window_argv (f :: fs))]),
     after_launch w (if reusable_window_exists
                     then reuse_window_argv (f :: fs)
                     else new_window_argv (f :: fs))).
Proof.
  intros Hr Hf. unfold main. rewrite (is_vscode_running_eta w true Hr).
  rewrite bind_returns. cbn [negb].
  destruct (find_reusable_window_from_status lower w) as [tr1 r1].
  unfold trace, result in *. cbn [fst snd] in *. subst r1.
  unfold subprocess_run, after_launch, activate_vscode.
  destruct reusable_window_exists.
  - destruct (runningApplications w);
      by destruct (os_run w (reuse_window_argv (f :: fs))).
  - by destruct (os_run w (new_window_argv (f :: fs))).
Qed.

End Launcher.

(** ** Concrete runs *)

(** The theorems above, at the worlds of the definitions. *)

Lemma is_vscode_running_tolerant_witness :
  ∃ b : bool,
    is_vscode_running world_editing = ([], Returns b) ∧
    (b = true ↔
     ∃ cmdline part pre post,
       Info (Some cmdline) ∈ process_iter world_editing ∧ part ∈ cmdline ∧
       part = pre ++ target_pattern ++ post).
Proof. apply (is_vscode_running_tolerant world_editing). reflexivity. Defined.

Lemma status_failure_means_no_reusable_window_witness :
  result (find_reusable_window_from_status ascii_lower world_status_error)
  = Returns false ∧
  result (find_reusable_window_from_status ascii_lower world_idle) = Returns false.
Proof.
  split.
  - apply (proj1 (status_failure_means_no_reusable_window ascii_lower
                    world_status_error) [] (lit " crashed ") 2%Z);
      [reflexivity | discriminate].
  - apply (proj2 (status_failure_means_no_reusable_window ascii_lower world_idle)
             (lit "[Errno 2] No such file or directory: 'code'")).
    reflexivity.
Defined.

Lemma untitled_window_is_reusable_witness :
  window_title untitled_window = [] ∧
  (∃ titles,
     result (get_vscode_window_names_cg ascii_lower world_editing)
     = Returns (PyList titles) ∧ [] ∈ titles) ∧
  (∀ out err,
     os_run world_editing status_argv = Completed out err 0 →
     [] ∉ parse_workspace_titles out →
     result (find_reusable_window_from_status ascii_lower world_editing)
     = Returns true).
Proof.
  apply (untitled_window_is_reusable ascii_lower world_editing
           [{| kCGWindowOwnerName := Some (lit "Code");
               kCGWindowName := Some (lit " bar ") |};
            {| kCGWindowOwnerName := Some (lit "Finder"); kCGWindowName := None |};
            untitled_window]
           untitled_window).
  - reflexivity.
  - reflexivity.
  - rewrite !elem_of_cons. tauto.
  - reflexivity.
  - left. reflexivity.
Defined.

Section Runs.

Variable lower : str → str.

Lemma after_launch_completes (w : world) (argv : list str) :
launches_complete w → is_launch (Spawn argv) →
after_launch w argv = Raises (SystemExit 0).
Proof.
intros Hl Ha. destruct (Hl argv Ha) as (out & err & rc & H).
unfold after_launch. by rewrite H.
Qed.

Lemma after_launch_exit (w : world) (argv : list str) (code : Z) :
after_launch w argv = Raises (SystemExit code) → code = 0%Z.
Proof.
unfold after_launch. destruct (os_run w argv); [|done]. by intros [= <-].
Qed.

(** When the editor is not running and files are given, the one call of
  [subprocess.run] is the new-window launch. *)
Lemma main_not_running_spawns (w : world) (f : str) (fs : list str) :
result (is_vscode_running w) = Returns false →
spawned (trace (main lower w (f :: fs))) = [new_window_argv (f :: fs)] ∧
printed (trace (main lower w (f :: fs))) = [] ∧
(launches_complete w → result (main lower w (f :: fs)) = Raises (SystemExit 0)).
Proof.
intros H. rewrite (main_not_running lower w (f :: fs) H).
repeat split. intros Hl. by apply after_launch_completes; [|split; [|left]].
Qed.

(** When the editor is not running and the launch call raises, the
    exception leaves [main]. *)
Lemma main_not_running_launch_raises (w : world) (f : str) (fs : list str) cls msg :
  result (is_vscode_running w) = Returns false →
  os_run w (new_window_argv (f :: fs)) = RunRaises cls msg →
  result (main lower w (f :: fs)) = Raises (Exception cls msg).
Proof.
  intros Hr Hos. rewrite (main_not_running lower w (f :: fs) Hr).
  cbn [result snd]. unfold after_launch. by rewrite Hos.
Qed.

(** When the status command succeeds and no window of the editor is on
    screen, the classification raises [TypeError], and so does [main]
    when the editor is running. *)
Lemma find_reusable_window_no_window (w : world) (windows : list cg_window) out err :
  os_run w status_argv = Completed out err 0 →
  CGWindowListCopyWindowInfo w = Some windows →
  forallb has_owner windows = true →
  List.filter (code_owner lower) windows = [] →
  result (find_reusable_window_from_status lower w)
  = Raises (Exception TypeError (lit "'bool' object is not iterable")).
Proof.
  intros Hos Hw Hown Hnone.
  rewrite (find_reusable_window_ran lower w out err Hos).
  rewrite result_bind. cbn [emit result snd]. rewrite result_bind.
  by rewrite (get_vscode_window_names_cg_result lower w windows Hw Hown), Hnone.
Qed.

Lemma main_no_window_raises (w : world) (windows : list cg_window) out err files :
  result (is_vscode_running w) = Returns true →
  os_run w status_argv = Completed out err 0 →
  CGWindowListCopyWindowInfo w = Some windows →
  forallb has_owner windows = true →
  List.filter (code_owner lower) windows = [] →
  result (main lower w files)
  = Raises (Exception TypeError (lit "'bool' object is not iterable")).
Proof.
  intros Hr Hos Hw Hown Hnone.
  by rewrite (main_classification_raises lower w files _ Hr
                (find_reusable_window_no_window w windows out err Hos Hw Hown Hnone)).
Qed.

(** The [sys.exit] calls.  Whenever the run reaches one of its [sys.exit]
  calls the exit code is 0; and whenever the scan and, if the editor
  runs, the classification return, and the launched editor command
  completes with whatever return code, the run does reach such a call
  and the exit status of the tool is 0.  A launch call that raises is
  outside this statement. *)
Theorem main_exit_code (w : world) (files_to_open : list str) :
(∀ code,
   result (main lower w files_to_open) = Raises (SystemExit code) → code = 0%Z) ∧
(∀ running reusable_window_exists,
   result (is_vscode_running w) = Returns running →
   (running = true →
    result (find_reusable_window_from_status lower w)
    = Returns reusable_window_exists) →
   launches_complete w →
   result (main lower w files_to_open) = Raises (SystemExit 0) ∧
   exit_status (result (main lower w files_to_open)) = 0%Z).
Proof.
split.
- intros code. destruct (result (is_vscode_running w)) as [[|]|e] eqn:Hr.
  + destruct (result (find_reusable_window_from_status lower w)) as [b|e] eqn:Hf.
    * destruct files_to_open as [|f fs].
      -- rewrite (main_query_only lower w b Hr Hf). by intros [= <-].
      -- rewrite (main_launch lower w b f fs Hr Hf). apply after_launch_exit.
    * rewrite (main_classification_raises lower w _ e Hr Hf). intros [= ->].
      by apply (proj2 (find_reusable_window_from_status_sat lower w)) in Hf.
  + rewrite (main_not_running lower w _ Hr). destruct files_to_open.
    * by intros [= <-].
    * apply after_launch_exit.
  + rewrite (main_scan_raises lower w _ e Hr). intros [= ->].
    by apply (proj2 (is_vscode_running_sat w)) in Hr.
- intros running b Hr Hf Hl.
  assert (H : result (main lower w files_to_open) = Raises (SystemExit 0));
    [|by rewrite H].
  destruct running.
  + specialize (Hf eq_refl). destruct files_to_open as [|f fs].
    * by rewrite (main_query_only lower w b Hr Hf).
    * rewrite (main_launch lower w b f fs Hr Hf). cbn [result snd].
      apply after_launch_completes; [done|].
      destruct b; (split; [done | by auto]).
  + rewrite (main_not_running lower w _ Hr). destruct files_to_open; [done|].
    by apply after_launch_completes; [|split; [|left]].
Qed.

(** C6, as amended. Without files, no call of the editor command line
  that opens files is made, however the run goes; when the editor is not
  running the one line printed is [VSCode is not running.] and the run
  exits with code 0; when the editor is running and the classification
  returns, the one line printed says whether a reusable window exists
  and the run exits with code 0. *)
Theorem main_query_only_no_launch (w : world) :
Forall (λ ev, ¬ is_launch ev) (trace (main lower w [])) ∧
(result (is_vscode_running w) = Returns false →
 printed (trace (main lower w [])) = [lit "VSCode is not running."] ∧
 result (main lower w []) = Raises (SystemExit 0)) ∧
(∀ reusable_window_exists,
   result (is_vscode_running w) = Returns true →
   result (find_reusable_window_from_status lower w)
   = Returns reusable_window_exists →
   printed (trace (main lower w [])) = [verdict reusable_window_exists] ∧
   result (main lower w []) = Raises (SystemExit 0)).
Proof.
pose proof (proj1 (find_reusable_window_from_status_sat lower w)) as Hb.
split; [|split].
- destruct (result (is_vscode_running w)) as [[|]|e] eqn:Hr.
  + destruct (result (find_reusable_window_from_status lower w)) as [b|e] eqn:Hf.
    * rewrite (main_query_only lower w b Hr Hf). cbn [trace fst].
      apply Forall_app. split.
      -- eapply Forall_impl; [exact Hb | apply benign_not_launch].
      -- quiet_events.
    * rewrite (main_classification_raises lower w _ e Hr Hf). cbn [trace fst].
      eapply Forall_impl; [exact Hb | apply benign_not_launch].
  + rewrite (main_not_running lower w _ Hr). quiet_events.
  + rewrite (main_scan_raises lower w _ e Hr). constructor.
- intros Hr. by rewrite (main_not_running lower w _ Hr).
- intros b Hr Hf. rewrite (main_query_only lower w b Hr Hf).
  cbn [trace result fst snd]. by rewrite printed_app, (printed_benign _ Hb).
Qed.

End Runs.

Lemma main_exit_code_witness :
  result (main ascii_lower world_editing [lit "/tmp/a.txt"]) = Raises (SystemExit 0) ∧
  exit_status (result (main ascii_lower world_editing [lit "/tmp/a.txt"])) = 0%Z.
Proof.
  apply (proj2 (main_exit_code ascii_lower world_editing [lit "/tmp/a.txt"]) true true).
  - reflexivity.
  - intros _. vm_compute. reflexivity.
  - intros argv _. unfold world_editing, os_run.
    destruct (decide (argv = status_argv)); by eexists _, _, _.
Defined.

Lemma main_query_only_no_launch_witness :
  (printed (trace (main ascii_lower world_idle [])) = [lit "VSCode is not running."] ∧
   result (main ascii_lower world_idle []) = Raises (SystemExit 0)) ∧
  (printed (trace (main ascii_lower world_editing [])) = [verdict true] ∧
   result (main ascii_lower world_editing []) = Raises (SystemExit 0)).
Proof.
  split.
  - apply (proj1 (proj2 (main_query_only_no_launch ascii_lower world_idle))).
    reflexivity.
  - apply (proj2 (proj2 (main_query_only_no_launch ascii_lower world_editing)) true).
    + reflexivity.
    + vm_compute. reflexivity.
Defined.

(** C6, as worded, fails: without files and with the editor not running,
    the line printed is [VSCode is not running.], which does not say
    whether a reusable window exists. *)
Lemma main_query_only_not_running :
  ¬ query_only_as_worded ascii_lower world_idle.
Proof.
  intros (_ & [b Hb] & _). revert Hb. destruct b; vm_compute; discriminate.
Qed.

(** C3. With the editor running, the status command successful and no
    window of the editor on screen, the enumerator returns [False],
    [sorted] raises [TypeError], nothing catches it, and the run ends with
    that exception and exit status 1, not with an exit code of its own. *)
Theorem main_no_onscreen_window_raises :
  result (is_vscode_running world_minimised) = Returns true ∧
  result (get_vscode_window_names_cg ascii_lower world_minimised) = Returns PyFalse ∧
  result (main ascii_lower world_minimised [lit "/tmp/a.txt"])
  = Raises (Exception TypeError (lit "'bool' object is not iterable")) ∧
  exit_status (result (main ascii_lower world_minimised [lit "/tmp/a.txt"])) = 1%Z.
Proof. repeat split; vm_compute; reflexivity. Qed.

(** C5. With the editor not running, a file to open and the [code]
    command missing, the new-window launch is the one call made, it raises
    [FileNotFoundError], nothing catches it, and the run ends with that
    exception and exit status 1 instead of exit code 0. *)
Theorem main_not_running_code_missing :
  result (is_vscode_running world_idle) = Returns false ∧
  spawned (trace (main ascii_lower world_idle [lit "/tmp/a.txt"]))
  = [[lit "code"; lit "--new-window"; lit "/tmp/a.txt"]] ∧
  result (main ascii_lower world_idle [lit "/tmp/a.txt"])
  = Raises (Exception FileNotFoundError
              (lit "[Errno 2] No such file or directory: 'code'")) ∧
  exit_status (result (main ascii_lower world_idle [lit "/tmp/a.txt"])) = 1%Z.
Proof. repeat split; vm_compute; reflexivity. Qed.


(** * Further properties of the program *)

(** ** The events of the classification *)

Lemma find_reusable_logs (titles : list str) (ws : gset str) :
  sat is_log is_exception (find_reusable titles ws).
Proof.
  unfold find_reusable. apply sat_for_each.
  - intros t. destruct (decide _); [|destruct (decide _)].
    + apply sat_bind; [by apply sat_log_debug | intros; apply sat_ret].
    + apply sat_bind; [by apply sat_log_debug | intros; apply sat_ret].
    + apply sat_ret.
  - apply sat_bind; [by apply sat_log_debug | intros; apply sat_ret].
Qed.

Lemma classify_logs (v : titles_or_false) (workspace : list str) :
  sat is_log is_exception (classify v workspace).
Proof.
  unfold classify. apply sat_bind.
  - destruct v; [by apply sat_raise | apply sat_ret].
  - intros l _. apply sat_bind; [by apply sat_log_debug|]. intros _ _.
    apply sat_bind; [by apply sat_log_debug|]. intros _ _.
    apply find_reusable_logs.
Qed.

Lemma get_vscode_window_names_cg_logs (lower : str → str) (w : world) :
  sat is_log is_exception (get_vscode_window_names_cg lower w).
Proof.
  unfold get_vscode_window_names_cg. apply sat_bind.
  - destruct (CGWindowListCopyWindowInfo w); [apply sat_ret | by apply sat_raise].
  - intros windows _. apply sat_bind.
    + apply sat_filter_m. intros win. unfold owned_by_code.
      destruct (kCGWindowOwnerName win); [apply sat_ret | by apply sat_raise].
    + intros l _. apply sat_bind; [by apply sat_log_debug|].
      intros _ _. destruct l; apply sat_ret.
Qed.

(** The classification calls the status command once, first, and
    otherwise only writes debug lines. *)
Lemma find_reusable_window_trace (lower : str → str) (w : world) :
  ∃ logs,
    trace (find_reusable_window_from_status lower w) = Spawn status_argv :: logs ∧
    Forall is_log logs.
Proof.
  unfold find_reusable_window_from_status. rewrite run_command_status.
  assert (Hrest : ∀ (out err : str) (rc : Z),
            Forall is_log
              (trace (if decide (rc ≠ 0%Z)
                      then log_debug (lit "Failed to run 'code --status'. Stderr: "
                                        ++ strip err);; mret false
                      else all_window_titles ← get_vscode_window_names_cg lower w;
                           classify all_window_titles (parse_workspace_titles out)))).
  { intros out err rc. destruct (decide _).
    - by repeat constructor.
    - apply (sat_bind is_log is_exception);
        [apply get_vscode_window_names_cg_logs | intros v _; apply classify_logs]. }
  destruct (os_run w status_argv) as [out err rc|[] msg]; rewrite bind_returns;
    cbn [trace fst app]; eexists; (split; [reflexivity|]);
    try (apply Forall_cons_2; [done|]); apply Hrest.
Qed.

Lemma actions_app tr1 tr2 : actions (tr1 ++ tr2) = actions tr1 ++ actions tr2.
Proof. apply List.filter_app. Qed.

Lemma actions_logs logs : Forall is_log logs → actions logs = [].
Proof.
  induction 1 as [|ev logs Hev _ IH]; [done|]. by destruct ev.
Qed.

Lemma printed_logs logs : Forall is_log logs → printed logs = [].
Proof.
  induction 1 as [|ev logs Hev _ IH]; [done|]. by destruct ev.
Qed.

Lemma actions_find_reusable_window (lower : str → str) (w : world) :
  actions (trace (find_reusable_window_from_status lower w)) = [Spawn status_argv].
Proof.
  destruct (find_reusable_window_trace lower w) as (logs & -> & Hlogs).
  cbn [actions List.filter]. f_equal. by apply actions_logs.
Qed.

(** ** Trimmed texts *)

Lemma lstrip_clean (s : str) : starts_clean (lstrip s) = true.
Proof.
  induction s as [|c s IH]; [done|]. cbn [lstrip].
  destruct (is_space c) eqn:Hc; [done|]. cbn. by rewrite Hc.
Qed.

Lemma lstrip_id (s : str) : starts_clean s = true → lstrip s = s.
Proof.
  destruct s as [|c s]; [done|]. cbn. by destruct (is_space c).
Qed.

Lemma strip_trimmed (s : str) : trimmed (strip s) = true.
Proof.
  unfold trimmed, strip, rstrip. rewrite rev_involutive, lstrip_clean, andb_true_r.
  destruct (lstrip_split (rev (lstrip s))) as (ws & Hs & _).
  pose proof (lstrip_clean s) as Ha.
  apply (f_equal (@rev _)) in Hs. rewrite rev_involutive, rev_app_distr in Hs.
  destruct (rev (lstrip (rev (lstrip s)))) as [|c r]; [done|].
  rewrite Hs in Ha. exact Ha.
Qed.

Lemma strip_of_trimmed (s : str) : trimmed s = true → strip s = s.
Proof.
  unfold trimmed, strip, rstrip. rewrite andb_true_iff. intros [H1 H2].
  by rewrite (lstrip_id s H1), (lstrip_id _ H2), rev_involutive.
Qed.

(** ** The parser, line by line *)

Lemma scan_status_lines (b : bool) (lines acc : list str) :
  scan_status b lines acc
  = acc ++ omap line_title
             (List.filter (λ line, negb (contains marker line))
                (if b then lines else after_marker lines)).
Proof.
  revert b acc. induction lines as [|line rest IH]; intros b acc.
  - cbn. destruct b; by rewrite app_nil_r.
  - cbn [scan_status after_marker]. destruct (contains marker line) eqn:Hm.
    + rewrite IH. destruct b; [|done]. cbn [List.filter]. by rewrite Hm.
    + destruct b; [|apply IH]. cbn [List.filter]. rewrite Hm. cbn [negb].
      assert (Hc : ∀ l, omap line_title (line :: l)
                        = match search line with
                          | Some g => strip g :: omap line_title l
                          | None => omap line_title l
                          end).
      { intros l. cbn [omap list_omap]. unfold line_title at 1.
        by destruct (search line). }
      rewrite Hc. destruct (search line) as [g|]; rewrite IH; [|done].
      by rewrite <- app_assoc.
Qed.

Lemma elem_of_parse_workspace_titles (status_output t : str) :
  t ∈ parse_workspace_titles status_output ↔ captured (splitlines status_output) t.
Proof.
  unfold parse_workspace_titles.
  rewrite scan_status_spec, <- hit_false_captured, elem_of_nil. tauto.
Qed.

(** X1. The list of workspace titles the parser builds is, in the order
    of the lines and one for each, the trimmed group of every line after
    the first marker line that does not hold the marker and that the
    pattern matches; and every title of the list is free of space
    characters at both ends. *)
Theorem parse_workspace_titles_lines (status_output : str) :
  parse_workspace_titles status_output
  = omap line_title
      (List.filter (λ line, negb (contains marker line))
         (after_marker (splitlines status_output))) ∧
  Forall (λ t, trimmed t = true) (parse_workspace_titles status_output).
Proof.
  assert (H : parse_workspace_titles status_output
              = omap line_title
                  (List.filter (λ line, negb (contains marker line))
                     (after_marker (splitlines status_output)))).
  { unfold parse_workspace_titles. by rewrite scan_status_lines. }
  split; [exact H|]. rewrite H. apply Forall_forall. intros t Ht.
  apply list_elem_of_omap in Ht as (line & _ & Hl). unfold line_title in Hl.
  destruct (search line) as [g|]; [|done]. injection Hl as <-. apply strip_trimmed.
Qed.

(** ** The window enumerator, in full *)

Section EnumeratorRuns.

Variable lower : str → str.

Lemma filter_m_ownerless (windows : list cg_window) (win : cg_window) :
  win ∈ windows → kCGWindowOwnerName win = None →
  filter_m (owned_by_code lower) windows
  = ([], Raises (Exception AttributeError
                   (lit "'NoneType' object has no attribute 'lower'"))).
Proof.
  intros Hin Hnone. induction windows as [|x windows IH].
  - by apply elem_of_nil in Hin.
  - cbn [filter_m]. destruct (kCGWindowOwnerName x) as [name|] eqn:Hx.
    + assert (Hx' : owned_by_code lower x = mret (contains (lit "code") (lower name)))
        by (unfold owned_by_code; by rewrite Hx).
      apply elem_of_cons in Hin as [->|Hin]; [congruence|].
      by rewrite Hx', M_left_id, (IH Hin).
    + assert (Hx' : owned_by_code lower x
                    = raise (Exception AttributeError
                               (lit "'NoneType' object has no attribute 'lower'")))
        by (unfold owned_by_code; by rewrite Hx).
      by rewrite Hx'.
Qed.

(** X2. When the compositor gives no list at all the enumerator raises
    [TypeError]; when one window of the list, of the editor or not, has no
    owner name, the enumerator raises [AttributeError]; in both cases
    before it writes its debug line. *)
Theorem get_vscode_window_names_cg_raises (w : world) :
  (CGWindowListCopyWindowInfo w = None →
   get_vscode_window_names_cg lower w
   = ([], Raises (Exception TypeError (lit "'NoneType' object is not iterable")))) ∧
  (∀ windows win,
     CGWindowListCopyWindowInfo w = Some windows →
     win ∈ windows → kCGWindowOwnerName win = None →
     get_vscode_window_names_cg lower w
     = ([], Raises (Exception AttributeError
                      (lit "'NoneType' object has no attribute 'lower'")))).
Proof.
  split.
  - intros Hw. unfold get_vscode_window_names_cg. by rewrite Hw.
  - intros windows win Hw Hin Hnone. unfold get_vscode_window_names_cg.
    by rewrite Hw, M_left_id, (filter_m_ownerless windows win Hin Hnone).
Qed.

(** X3. When every window of the compositor list has an owner name, the
    enumerator writes one debug line with the number of editor windows and
    returns [False] when there is none, and otherwise the titles of the
    editor windows, one for each window and in the order of the list, each
    free of space characters at both ends. *)
Theorem get_vscode_window_names_cg_titles (w : world) (windows : list cg_window) :
  CGWindowListCopyWindowInfo w = Some windows →
  forallb has_owner windows = true →
  get_vscode_window_names_cg lower w
  = ([LogDebug (lit "Found "
                  ++ of_nat (length (List.filter (code_owner lower) windows))
                  ++ lit " on-screen VSCode windows via CoreGraphics.")],
     Returns match List.filter (code_owner lower) windows with
             | [] => PyFalse
             | _ :: _ =>
                 PyList (window_title <$> List.filter (code_owner lower) windows)
             end) ∧
  length (window_title <$> List.filter (code_owner lower) windows)
  = length (List.filter (code_owner lower) windows) ∧
  Forall (λ t, trimmed t = true)
    (window_title <$> List.filter (code_owner lower) windows).
Proof.
  intros Hw Hown. split; [|split].
  - unfold get_vscode_window_names_cg.
    rewrite Hw, M_left_id, (filter_m_owned lower windows Hown), bind_returns.
    by destruct (List.filter (code_owner lower) windows).
  - apply length_fmap.
  - apply Forall_fmap, Forall_forall. intros win _. apply strip_trimmed.
Qed.

Lemma find_reusable_window_classified (w : world) (windows : list cg_window)
    (out err : str) (win : cg_window) :
  os_run w status_argv = Completed out err 0 →
  CGWindowListCopyWindowInfo w = Some windows →
  forallb has_owner windows = true →
  win ∈ windows → code_owner lower win = true →
  result (find_reusable_window_from_status lower w)
  = Returns (existsb (reusable (list_to_set (sorted (parse_workspace_titles out))))
               (sorted (window_title <$> List.filter (code_owner lower) windows))).
Proof.
  intros Hos Hw Hown Hin Hc.
  rewrite (find_reusable_window_ran lower w out err Hos).
  rewrite result_bind. cbn [emit result snd]. rewrite result_bind.
  rewrite (get_vscode_window_names_cg_result lower w windows Hw Hown).
  destruct (List.filter (code_owner lower) windows) as [|x l] eqn:Hl.
  - exfalso. apply (elem_of_nil win). rewrite <- Hl.
    apply list_elem_of_In, filter_In. by rewrite <- list_elem_of_In.
  - apply classify_result.
Qed.

(** X4. When the status command ran with return code 0, every window of
    the compositor list has an owner name and at least one is a window of
    the editor, [find_reusable_window_from_status] returns a boolean, which
    is true exactly when some editor window has a title, trimmed, that is
    not [Welcome] and is not a title captured from the status output. *)
Theorem find_reusable_window_from_status_spec (w : world)
    (windows : list cg_window) (out err : str) :
  os_run w status_argv = Completed out err 0 →
  CGWindowListCopyWindowInfo w = Some windows →
  forallb has_owner windows = true →
  (∃ win, win ∈ windows ∧ code_owner lower win = true) →
  ∃ b : bool,
    result (find_reusable_window_from_status lower w) = Returns b ∧
    (b = true ↔
     ∃ win, win ∈ windows ∧ code_owner lower win = true ∧
            window_title win ≠ lit "Welcome" ∧
            ¬ captured (splitlines out) (window_title win)).
Proof.
  intros Hos Hw Hown (win0 & Hin0 & Hc0).
  assert (Hf : ∀ win, win ∈ List.filter (code_owner lower) windows
                      ↔ win ∈ windows ∧ code_owner lower win = true).
  { intros win. by rewrite !list_elem_of_In, filter_In. }
  eexists. split.
  - apply (find_reusable_window_classified w windows out err win0); done.
  - rewrite classify_true_iff. split.
    + intros (t & Ht & Hws & Hne). apply list_elem_of_fmap in Ht as (win & -> & Hwin).
      apply Hf in Hwin as [Hin Hc]. exists win. repeat split; try done.
      by rewrite <- elem_of_parse_workspace_titles.
    + intros (win & Hin & Hc & Hne & Hcap). exists (window_title win).
      repeat split; [|by rewrite elem_of_parse_workspace_titles | done].
      apply list_elem_of_fmap_2, Hf. done.
Qed.

(** X5. When the status output has no line with the marker (an empty
    output, or a report without the workspace section) no title is
    captured, so that the answer is [True] as soon as one window of the
    editor has a title other than [Welcome]. *)
Theorem no_workspace_section_all_reusable (w : world)
    (windows : list cg_window) (win : cg_window) (out err : str) :
  os_run w status_argv = Completed out err 0 →
  CGWindowListCopyWindowInfo w = Some windows →
  forallb has_owner windows = true →
  (∀ line, line ∈ splitlines out → contains marker line = false) →
  win ∈ windows → code_owner lower win = true →
  window_title win ≠ lit "Welcome" →
  parse_workspace_titles out = [] ∧
  result (find_reusable_window_from_status lower w) = Returns true.
Proof.
  intros Hos Hw Hown Hnone Hin Hc Hne.
  assert (Hcap : ∀ t, ¬ captured (splitlines out) t).
  { intros t (i & j & mline & line & g & Hi & Hm & _).
    apply list_elem_of_lookup_2, Hnone in Hi. by rewrite Hi in Hm. }
  split.
  - destruct (parse_workspace_titles out) as [|t l] eqn:Hp; [done|].
    exfalso. apply (Hcap t), elem_of_parse_workspace_titles.
    rewrite Hp. by left.
  - rewrite (find_reusable_window_classified w windows out err win Hos Hw Hown Hin Hc).
    f_equal. apply classify_true_iff. exists (window_title win).
    repeat split; [|by rewrite elem_of_parse_workspace_titles | done].
    apply list_elem_of_fmap_2, list_elem_of_In, filter_In.
    by rewrite <- list_elem_of_In.
Qed.

End EnumeratorRuns.

(** ** The runs of [main], in full *)

Lemma actions_activate_vscode (w : world) :
  actions (trace (activate_vscode w)) = ActivateApp <$> take 1 (runningApplications w).
Proof. unfold activate_vscode. by destruct (runningApplications w). Qed.

Lemma after_launch_zero_iff (w : world) (argv : list str) :
  after_launch w argv = Raises (SystemExit 0) ↔ completes w argv.
Proof.
  unfold after_launch, completes. destruct (os_run w argv) as [out err rc|cls msg].
  - split; [by eexists _, _, _ | done].
  - split; [done | by intros (out & err & rc & H)].
Qed.

Section MainRuns.

Variable lower : str → str.

(** X6. What a run of [main] does besides writing, in every case.  If the
    scan raises, nothing.  If the editor is not running: nothing without
    files, and with files the one new-window call.  If the editor is
    running: the status call first; nothing more when the classification
    raises or no file is given; otherwise one launch call, preceded on the
    reuse path, and only there, by the activation of the first running
    application if there is one.  The launch call has the flag and then
    the files as they were given. *)
Theorem main_actions (w : world) (files_to_open : list str) :
  (∀ e, result (is_vscode_running w) = Raises e →
        actions (trace (main lower w files_to_open)) = []) ∧
  (result (is_vscode_running w) = Returns false →
   actions (trace (main lower w files_to_open))
   = match files_to_open with
     | [] => []
     | _ :: _ => [Spawn ([lit "code"; lit "--new-window"] ++ files_to_open)]
     end) ∧
  (result (is_vscode_running w) = Returns true →
   (∀ e, result (find_reusable_window_from_status lower w) = Raises e →
         actions (trace (main lower w files_to_open)) = [Spawn status_argv]) ∧
   (∀ b : bool,
      result (find_reusable_window_from_status lower w) = Returns b →
      actions (trace (main lower w files_to_open))
      = Spawn status_argv ::
          match files_to_open with
          | [] => []
          | _ :: _ =>
              (if b then ActivateApp <$> take 1 (runningApplications w) else [])
              ++ [Spawn ([lit "code";
                          if b then lit "--reuse-window" else lit "--new-window"]
                         ++ files_to_open)]
          end)).
Proof.
  split; [|split].
  - intros e He. by rewrite (main_scan_raises lower w _ e He).
  - intros Hr. rewrite (main_not_running lower w _ Hr). by destruct files_to_open.
  - intros Hr. split.
    + intros e He. rewrite (main_classification_raises lower w _ e Hr He).
      apply actions_find_reusable_window.
    + intros b Hb. destruct files_to_open as [|f fs].
      * rewrite (main_query_only lower w b Hr Hb). cbn [trace fst].
        by rewrite actions_app, actions_find_reusable_window.
      * rewrite (main_launch lower w b f fs Hr Hb). cbn [trace fst].
        rewrite actions_app, actions_find_reusable_window. cbn [app]. f_equal.
        destruct b; [|done].
        change (actions (?a :: ?b :: ?l)) with (actions l).
        by rewrite actions_app, actions_activate_vscode.
Qed.

(** X7. A run of [main] never returns: it ends with [sys.exit] or with an
    exception.  It ends with [sys.exit(0)] exactly when the scan returns
    and either the editor is not running and no file is given or the
    new-window call completes, or the editor is running, the
    classification returns and no file is given or the launch call
    completes. *)
Theorem main_exits_zero_iff (w : world) (files_to_open : list str) :
  (∀ u, result (main lower w files_to_open) ≠ Returns u) ∧
  (result (main lower w files_to_open) = Raises (SystemExit 0) ↔
   (result (is_vscode_running w) = Returns false ∧
    (files_to_open = [] ∨ completes w (new_window_argv files_to_open))) ∨
   (result (is_vscode_running w) = Returns true ∧
    ∃ b, result (find_reusable_window_from_status lower w) = Returns b ∧
         (files_to_open = [] ∨ completes w (launch_argv b files_to_open)))).
Proof.
  destruct (result (is_vscode_running w)) as [[|]|e] eqn:Hr.
  - destruct (result (find_reusable_window_from_status lower w)) as [b|e] eqn:Hf.
    + destruct files_to_open as [|f fs].
      * rewrite (main_query_only lower w b Hr Hf). split; [done|].
        split; [|done]. intros _. right. split; [done|]. exists b. by auto.
      * rewrite (main_launch lower w b f fs Hr Hf). cbn [result snd].
        fold (launch_argv b (f :: fs)). split.
        { intros u. unfold after_launch. by destruct (os_run w _). }
        rewrite after_launch_zero_iff. split.
        -- intros Hc. right. split; [done|]. exists b. by auto.
        -- intros [[? _] | [_ (b' & [= <-] & [? | Hc])]]; done.
    + rewrite (main_classification_raises lower w _ e Hr Hf). cbn [result snd].
      split; [done|]. split.
      * intros [= ->].
        by apply (proj2 (find_reusable_window_from_status_sat lower w)) in Hf.
      * intros [[? _] | [_ (b & ? & _)]]; done.
  - rewrite (main_not_running lower w _ Hr). destruct files_to_open as [|f fs].
    + split; [done|]. split; [|done]. intros _. left. by auto.
    + cbn [result snd]. split.
      { intros u. unfold after_launch. by destruct (os_run w _). }
      rewrite after_launch_zero_iff. split.
      * intros Hc. left. by auto.
      * intros [[_ [? | Hc]] | [? _]]; done.
  - rewrite (main_scan_raises lower w _ e Hr). cbn [result snd].
    split; [done|]. split.
    + intros [= ->]. by apply (proj2 (is_vscode_running_sat w)) in Hr.
    + intros [[? _] | [? _]]; done.
Qed.

(** X8. What a run of [main] prints when files are given: nothing when
    the editor is not running (the opening is only written as a debug
    line) or when the classification raises, and otherwise one line that
    says whether the files are opened in a reused or in a new window and
    lists them, each quoted for a shell and separated by a space. *)
Theorem main_printed_with_files (w : world) (f : str) (fs : list str) :
  (result (is_vscode_running w) = Returns false →
   printed (trace (main lower w (f :: fs))) = []) ∧
  (result (is_vscode_running w) = Returns true →
   (∀ e, result (find_reusable_window_from_status lower w) = Raises e →
         printed (trace (main lower w (f :: fs))) = []) ∧
   (∀ b : bool,
      result (find_reusable_window_from_status lower w) = Returns b →
      printed (trace (main lower w (f :: fs))) = [opening_line b (f :: fs)])).
Proof.
  assert (Hp : printed (trace (find_reusable_window_from_status lower w)) = []).
  { apply printed_benign, find_reusable_window_from_status_sat. }
  split.
  - intros Hr. by rewrite (main_not_running lower w _ Hr).
  - intros Hr. split.
    + intros e He. by rewrite (main_classification_raises lower w _ e Hr He).
    + intros b Hb. rewrite (main_launch lower w b f fs Hr Hb). cbn [trace fst].
      rewrite printed_app, Hp. destruct b; [|done].
      unfold activate_vscode. by destruct (runningApplications w).
Qed.

(** X9. When the editor is not running, a run of [main] depends on the
    process list and on the outcome of the new-window call alone: the
    status command, the window list, the running applications and the
    case mapping play no part. *)
Theorem main_not_running_frame (lower' : str → str) (w w' : world)
    (files_to_open : list str) :
  process_iter w = process_iter w' →
  result (is_vscode_running w) = Returns false →
  os_run w (new_window_argv files_to_open) = os_run w' (new_window_argv files_to_open) →
  main lower w files_to_open = main lower' w' files_to_open.
Proof.
  intros Hp Hr Hos.
  assert (Hr' : result (is_vscode_running w') = Returns false).
  { unfold is_vscode_running in *. by rewrite <- Hp. }
  rewrite (main_not_running lower w _ Hr), (main_not_running lower' w' _ Hr').
  unfold after_launch. by rewrite Hos.
Qed.

End MainRuns.

(** ** The status command, in full *)

(** X10. When the status command does not complete with return code 0,
    [find_reusable_window_from_status] stops there: its events and its
    answer depend on the outcome of the status call alone, not on the
    window list, the process list, the running applications or the case
    mapping, and its last debug line gives the error text of the command,
    trimmed. *)
Theorem find_reusable_window_status_failed (lower lower' : str → str) (w w' : world) :
  os_run w status_argv = os_run w' status_argv →
  (∀ out err, os_run w status_argv ≠ Completed out err 0) →
  find_reusable_window_from_status lower w
  = find_reusable_window_from_status lower' w' ∧
  last (trace (find_reusable_window_from_status lower w))
  = Some (LogDebug (lit "Failed to run 'code --status'. Stderr: "
                      ++ strip (status_stderr w))).
Proof.
  intros Hos Hfail. unfold find_reusable_window_from_status, status_stderr.
  rewrite !run_command_status, <- Hos.
  destruct (os_run w status_argv) as [out err rc|[] msg] eqn:Hrun;
    rewrite !bind_returns; cbn [trace result fst snd];
    (destruct (decide _) as [_|Hd]; [done|]); exfalso.
  1: { apply (Hfail out err). f_equal. by destruct (decide (rc = 0%Z)); [|destruct Hd]. }
  all: by apply Hd.
Qed.

(** X11. [run_command] on a command of plain words, at least one, calls
    [subprocess.run] once with the words and always returns: the output,
    error text and return code of a process that completed, unchanged and
    with no debug line; code 127, no output and the error text
    [Command not found:] with the first word when the call raises
    [FileNotFoundError]; code 1, no output and the text of the exception
    when the call raises any other exception. *)
Theorem run_command_returns (w : world) (command : str) (arg0 : str) (args : list str) :
  shlex_plain command = true →
  split command = arg0 :: args →
  run_command w command =
  match os_run w (arg0 :: args) with
  | Completed out err rc => ([Spawn (arg0 :: args)], Returns (out, err, rc))
  | RunRaises FileNotFoundError _ =>
      ([Spawn (arg0 :: args); LogDebug (lit "Command not found: " ++ arg0)],
       Returns ([], lit "Command not found: " ++ arg0, 127%Z))
  | RunRaises _ msg =>
      ([Spawn (arg0 :: args);
        LogDebug (lit "An unexpected error occurred while running '"
                    ++ command ++ lit "': " ++ msg)],
       Returns ([], msg, 1%Z))
  end.
Proof.
  intros _ Hsplit. unfold run_command, subprocess_run, shlex_split.
  rewrite Hsplit. destruct (os_run w (arg0 :: args)) as [out err rc|[] msg];
    reflexivity.
Qed.

(** ** The process scanner, in full *)

Lemma inspect_step (proc : proc_info) :
  tolerated proc = true →
  try_except (inspect_process proc)
    (λ e,
       match e with
       | Exception NoSuchProcess _
       | Exception AccessDenied _
       | Exception ZombieProcess _ => Some (mret None)
       | _ => None
       end)
  = ([], Returns (if shows_vscode proc then Some true else None)).
Proof.
  destruct proc as [[[|part parts]|]|cls msg]; try done.
  - intros _. cbn [shows_vscode]. unfold inspect_process. rewrite M_left_id.
    by destruct (existsb (contains target_pattern) (part :: parts)).
  - by destruct cls.
Qed.

(** X12. The scan stops at the first entry that decides it.  After
    entries that can be read or raise one of the three caught errors, an
    entry that shows the editor makes the scan return [True] whatever
    follows it in the list, entries that would raise included; and if
    none of the entries before shows the editor, an entry that raises any
    other error makes the scan raise that error. *)
Theorem is_vscode_running_first_decisive (w : world)
    (before after : list proc_info) (proc : proc_info) :
  process_iter w = before ++ proc :: after →
  forallb tolerated before = true →
  (tolerated proc = true → shows_vscode proc = true →
   is_vscode_running w = ([], Returns true)) ∧
  (∀ cls msg,
     proc = InfoRaises cls msg → skippable cls = false →
     existsb shows_vscode before = false →
     is_vscode_running w = ([], Raises (Exception cls msg))).
Proof.
  intros Hw Hbefore. unfold is_vscode_running. rewrite Hw. clear Hw.
  induction before as [|p before IH].
  - split.
    + intros Ht Hs. cbn [app].
      by rewrite (for_each_return _ _ _ _ [] true); [|rewrite inspect_step, Hs].
    + intros cls msg -> Hcls _. cbn [app for_each]. unfold inspect_process.
      by destruct cls.
  - cbn [forallb] in Hbefore. apply andb_true_iff in Hbefore as [Hp Hbefore].
    destruct (IH Hbefore) as [IH1 IH2]. cbn [app]. split.
    + intros Ht Hs. destruct (shows_vscode p) eqn:Hsp.
      * by rewrite (for_each_return _ _ _ _ [] true); [|rewrite inspect_step, Hsp].
      * rewrite for_each_continue; [by apply IH1 | by rewrite inspect_step, Hsp].
    + intros cls msg Hproc Hcls Hnone. cbn [existsb] in Hnone.
      apply orb_false_iff in Hnone as [Hsp Hnone].
      rewrite for_each_continue; [by apply IH2 | by rewrite inspect_step, Hsp].
Qed.

(** ** The AppleScript enumerator *)

Lemma split_comma_space_from_cons (cur s : str) :
  ∃ x l, split_comma_space_from cur s = x :: l.
Proof.
  revert cur. induction s as [|c s IH]; intros cur; [by eexists _, _|].
  cbn [split_comma_space_from]. destruct s as [|d s]; [by eexists _, _|].
  destruct ((c =? 44) && (d =? 32)); [by eexists _, _ | apply IH].
Qed.

Lemma split_comma_space_step (c d : char) (s cur : str) :
  split_comma_space_from cur (c :: d :: s)
  = if (c =? 44) && (d =? 32) then rev cur :: split_comma_space_from [] s
    else split_comma_space_from (c :: cur) (d :: s).
Proof. reflexivity. Qed.

Lemma join_cons (sep x : str) (l : list str) :
  l ≠ [] → join sep (x :: l) = x ++ sep ++ join sep l.
Proof. by destruct l. Qed.

Lemma join_split_comma_space_from (n : nat) (s cur : str) :
  (length s ≤ n)%nat →
  join [44; 32] (split_comma_space_from cur s) = rev cur ++ s.
Proof.
  revert s cur. induction n as [|n IH]; intros s cur Hn.
  - destruct s; [|cbn in Hn; lia]. cbn [split_comma_space_from join]. apply eq_sym, app_nil_r.
  - destruct s as [|c [|d s]].
    + cbn [split_comma_space_from join]. apply eq_sym, app_nil_r.
    + reflexivity.
    + rewrite split_comma_space_step. cbn in Hn.
      destruct ((c =? 44) && (d =? 32)) eqn:Hcd.
      * apply andb_true_iff in Hcd as [->%N.eqb_eq ->%N.eqb_eq].
        destruct (split_comma_space_from_cons [] s) as (x & l & Hx).
        rewrite join_cons by (by rewrite Hx).
        rewrite (IH s []) by lia. done.
      * rewrite (IH (d :: s) (c :: cur)) by (cbn; lia).
        cbn [rev]. by rewrite <- app_assoc.
Qed.

(** Joining the pieces with the separator gives the text back. *)
Lemma join_split_comma_space (s : str) :
  join (lit ", ") (split_comma_space s) = s.
Proof. apply (join_split_comma_space_from (length s) s []). lia. Qed.

(** X13. [get_vscode_window_names_as] calls [osascript] once with the
    script.  It returns the empty list when the program is missing, when
    it ends with a return code other than 0, and when its output is blank;
    otherwise it returns a list of names that is not empty and that,
    joined with comma and space, is the output trimmed.  An exception of
    the call other than [FileNotFoundError] leaves the function. *)
Theorem get_vscode_window_names_as_spec (w : world) :
  actions (trace (get_vscode_window_names_as w)) = [Spawn osascript_argv] ∧
  (∀ msg,
     os_run w osascript_argv = RunRaises FileNotFoundError msg →
     result (get_vscode_window_names_as w) = Returns []) ∧
  (∀ out err rc,
     os_run w osascript_argv = Completed out err rc → rc ≠ 0%Z →
     result (get_vscode_window_names_as w) = Returns []) ∧
  (∀ out err,
     os_run w osascript_argv = Completed out err 0 →
     ∃ names,
       result (get_vscode_window_names_as w) = Returns names ∧
       (names = [] ↔ strip out = []) ∧
       (strip out ≠ [] → join (lit ", ") names = strip out)) ∧
  (∀ cls msg,
     os_run w osascript_argv = RunRaises cls msg → cls ≠ FileNotFoundError →
     result (get_vscode_window_names_as w) = Raises (Exception cls msg)).
Proof.
  unfold get_vscode_window_names_as, emit. rewrite bind_returns.
  cbn [trace result fst snd].
  split; [|split; [|split; [|split]]].
  - destruct (os_run w osascript_argv) as [out err rc|[] msg]; try done;
      destruct (decide _); try done; by destruct (strip out).
  - by intros msg ->.
  - intros out err rc -> Hrc. by destruct (decide _).
  - intros out err ->. destruct (decide _) as [Hd|_]; [done|].
    destruct (strip out) as [|c s] eqn:Hs.
    + by exists [].
    + exists (split_comma_space (c :: s)). split; [done|]. split.
      * destruct (split_comma_space_from_cons [] (c :: s)) as (x & l & Hx).
        unfold split_comma_space. rewrite Hx. done.
      * intros _. apply join_split_comma_space.
  - intros cls msg -> Hcls. by destruct cls.
Qed.

(** ** The order of the titles *)

Lemma leb_refl (a : str) : leb a a = true.
Proof.
  induction a as [|c a IH]; [done|]. cbn. by rewrite N.eqb_refl, IH, orb_true_r.
Qed.

Lemma leb_total (a b : str) : leb a b = true ∨ leb b a = true.
Proof.
  revert b. induction a as [|c a IH]; intros [|d b]; cbn; auto.
  destruct (N.ltb_spec c d); [by left|]. destruct (N.ltb_spec d c); [by right|].
  assert (c = d) as -> by lia. rewrite N.eqb_refl. cbn. apply IH.
Qed.

Lemma leb_trans (a b c : str) : leb a b = true → leb b c = true → leb a c = true.
Proof.
  revert b c. induction a as [|x a IH]; intros [|y b] [|z c]; cbn; try done.
  rewrite !orb_true_iff, !andb_true_iff, !N.ltb_lt, !N.eqb_eq.
  intros [Hxy | [-> Hab]] [Hyz | [-> Hbc]].
  - left. lia.
  - by left.
  - by left.
  - right. split; [done|]. by apply (IH b).
Qed.

#[global] Instance le_total : Total Str.le.
Proof.
  intros a b. unfold Str.le. destruct (leb_total a b) as [-> | ->]; [by left | by right].
Qed.

#[global] Instance le_trans : Transitive Str.le.
Proof.
  intros a b c. unfold Str.le. rewrite !Is_true_true. apply leb_trans.
Qed.

Lemma sorted_strongly (l : list str) : StronglySorted Str.le (sorted l).
Proof. apply StronglySorted_merge_sort; apply _. Qed.

Lemma find_reusable_cons (x : str) (l : list str) (ws : gset str) :
  find_reusable (x :: l) ws =
  if decide (x = welcome) then
    (LogDebug (lit "Ignoring 'Welcome' window.") :: trace (find_reusable l ws),
     result (find_reusable l ws))
  else if decide (x ∉ ws) then ([found_line x], Returns true)
  else find_reusable l ws.
Proof.
  unfold find_reusable at 1. cbn [for_each]. fold (find_reusable l ws).
  destruct (decide (x = welcome)); [|destruct (decide (x ∉ ws))].
  - by destruct (find_reusable l ws).
  - reflexivity.
  - rewrite M_left_id. reflexivity.
Qed.

(** The loop returns on the first title of the list that is neither the
    welcome title nor a workspace title, and its last debug line names it. *)
Lemma find_reusable_first (l : list str) (ws : gset str) :
  existsb (reusable ws) l = true →
  ∃ pre t post,
    l = pre ++ t :: post ∧ existsb (reusable ws) pre = false ∧
    reusable ws t = true ∧
    last (trace (find_reusable l ws)) = Some (found_line t).
Proof.
  induction l as [|x l IH]; [done|]. cbn [existsb]. rewrite find_reusable_cons.
  unfold reusable at 1.
  destruct (decide (x = welcome)) as [Hx|Hx].
  - rewrite bool_decide_eq_false_2 by (by intros H). cbn [andb orb].
    intros (pre & t & post & -> & Hpre & Ht & Hlast)%IH.
    exists (x :: pre), t, post. repeat split; try done.
    + cbn [existsb]. rewrite Hpre, orb_false_r. unfold reusable.
      by rewrite bool_decide_eq_false_2 by (by intros H).
    + cbn [trace fst]. by rewrite last_cons, Hlast.
  - rewrite bool_decide_eq_true_2 by done. cbn [andb].
    destruct (decide (x ∉ ws)) as [Hw|Hw].
    + intros _. exists [], x, l. repeat split; try done. unfold reusable.
      by rewrite !bool_decide_eq_true_2.
    + rewrite bool_decide_eq_false_2 by done. cbn [orb].
      intros (pre & t & post & -> & Hpre & Ht & Hlast)%IH.
      exists (x :: pre), t, post. repeat split; try done.
      cbn [existsb]. rewrite Hpre, orb_false_r. unfold reusable.
      rewrite bool_decide_eq_true_2 by done. by rewrite bool_decide_eq_false_2.
Qed.

Lemma classify_list_eq (onscreen workspace : list str) :
  classify (PyList onscreen) workspace =
  (LogDebug (lit "Found " ++ of_nat (length (sorted onscreen)) ++ lit " total windows.")
   :: LogDebug (lit "Found "
                  ++ of_nat (size (list_to_set (sorted workspace) : gset str))
                  ++ lit " declared workspaces.")
   :: trace (find_reusable (sorted onscreen) (list_to_set (sorted workspace))),
   result (find_reusable (sorted onscreen) (list_to_set (sorted workspace)))).
Proof.
  unfold classify, py_sorted. rewrite M_left_id.
  by destruct (find_reusable (sorted onscreen) (list_to_set (sorted workspace))).
Qed.

(** X14. When the classifier returns [True], its last debug line names a
    reusable window: an on-screen title that is neither [Welcome] nor a
    workspace title; and, the titles being sorted before the loop, it is
    the least such title in the order of the code points. *)
Theorem classify_reports_least_title (onscreen workspace : list str) :
  result (classify (PyList onscreen) workspace) = Returns true →
  ∃ t,
    last (trace (classify (PyList onscreen) workspace)) = Some (found_line t) ∧
    t ∈ onscreen ∧ (t ∉ workspace) ∧ t ≠ lit "Welcome" ∧
    ∀ t', t' ∈ onscreen → (t' ∉ workspace) → t' ≠ lit "Welcome" → Str.le t t'.
Proof.
  rewrite classify_result. intros [= Hex].
  destruct (find_reusable_first _ _ Hex) as (pre & t & post & Hl & Hpre & Ht & Hlast).
  pose proof (sorted_strongly onscreen) as Hsorted. rewrite Hl in Hsorted.
  assert (Hre : ∀ x, reusable (list_to_set (sorted workspace)) x = true
                     ↔ x ≠ welcome ∧ x ∉ workspace).
  { intros x. unfold reusable.
    rewrite andb_true_iff, !bool_decide_eq_true, elem_of_list_to_set, elem_of_sorted.
    done. }
  exists t. split; [|split; [|split; [|split]]].
  - rewrite classify_list_eq. cbn [trace fst]. by rewrite !last_cons, Hlast.
  - apply elem_of_sorted. rewrite Hl, elem_of_app, elem_of_cons. auto.
  - by apply Hre.
  - by apply Hre.
  - intros t' Hin Hws Hne. apply elem_of_sorted in Hin.
    rewrite Hl, elem_of_app, elem_of_cons in Hin.
    destruct Hin as [Hin | [-> | Hin]].
    + exfalso. assert (Hr : reusable (list_to_set (sorted workspace)) t' = true)
        by (by apply Hre).
      assert (existsb (reusable (list_to_set (sorted workspace))) pre = true);
        [|congruence].
      apply existsb_exists. exists t'. by rewrite <- list_elem_of_In.
    + unfold Str.le. by rewrite leb_refl.
    + apply StronglySorted_app_1_r, StronglySorted_cons in Hsorted as [Hall _].
      by apply (proj1 (Forall_forall _ _) Hall).
Qed.

(** ** The further properties, at the worlds of the definitions *)

Lemma get_vscode_window_names_cg_raises_witness :
  get_vscode_window_names_cg ascii_lower world_scripted
  = ([], Raises (Exception TypeError (lit "'NoneType' object is not iterable"))) ∧
  get_vscode_window_names_cg ascii_lower world_ownerless
  = ([], Raises (Exception AttributeError
                   (lit "'NoneType' object has no attribute 'lower'"))).
Proof.
  split.
  - apply (proj1 (get_vscode_window_names_cg_raises ascii_lower world_scripted)).
    reflexivity.
  - apply (proj2 (get_vscode_window_names_cg_raises ascii_lower world_ownerless)
             [untitled_window; dock_window] dock_window).
    + reflexivity.
    + rewrite !elem_of_cons. tauto.
    + reflexivity.
Defined.

Lemma get_vscode_window_names_cg_titles_witness :
  result (get_vscode_window_names_cg ascii_lower world_editing)
  = Returns (PyList [lit "bar"; []]).
Proof.
  pose proof (get_vscode_window_names_cg_titles ascii_lower world_editing
                [{| kCGWindowOwnerName := Some (lit "Code");
                    kCGWindowName := Some (lit " bar ") |};
                 {| kCGWindowOwnerName := Some (lit "Finder"); kCGWindowName := None |};
                 untitled_window] eq_refl eq_refl) as [H _].
  rewrite H. reflexivity.
Defined.

Lemma find_reusable_window_from_status_spec_witness :
  ∃ b : bool,
    result (find_reusable_window_from_status ascii_lower world_no_section) = Returns b ∧
    (b = true ↔
     ∃ win, win ∈ [notes_window] ∧ code_owner ascii_lower win = true ∧
            window_title win ≠ lit "Welcome" ∧
            ¬ captured
                (splitlines (lit "Version: Code 1.90" ++ [10] ++ lit "| Window (notes.txt)"))
                (window_title win)).
Proof.
  apply (find_reusable_window_from_status_spec ascii_lower world_no_section
           [notes_window] _ []).
  - reflexivity.
  - reflexivity.
  - reflexivity.
  - exists notes_window. split; [by left | reflexivity].
Defined.

Lemma no_workspace_section_all_reusable_witness :
  parse_workspace_titles (lit "Version: Code 1.90" ++ [10] ++ lit "| Window (notes.txt)")
  = [] ∧
  result (find_reusable_window_from_status ascii_lower world_no_section) = Returns true.
Proof.
  apply (no_workspace_section_all_reusable ascii_lower world_no_section
           [notes_window] notes_window _ []).
  - reflexivity.
  - reflexivity.
  - reflexivity.
  - intros line Hin.
    change (line ∈ [lit "Version: Code 1.90"; lit "| Window (notes.txt)"]) in Hin.
    rewrite !elem_of_cons, elem_of_nil in Hin.
    destruct Hin as [-> | [-> | []]]; reflexivity.
  - by left.
  - reflexivity.
  - vm_compute. discriminate.
Defined.

Lemma main_actions_witness :
  actions (trace (main ascii_lower world_idle [lit "/tmp/a.txt"]))
  = [Spawn [lit "code"; lit "--new-window"; lit "/tmp/a.txt"]] ∧
  actions (trace (main ascii_lower world_editing [lit "/tmp/a.txt"; lit "/tmp/b c"]))
  = [Spawn status_argv; ActivateApp 501;
     Spawn [lit "code"; lit "--reuse-window"; lit "/tmp/a.txt"; lit "/tmp/b c"]].
Proof.
  split.
  - apply (proj1 (proj2 (main_actions ascii_lower world_idle [lit "/tmp/a.txt"]))).
    reflexivity.
  - apply (proj2 (proj2 (proj2 (main_actions ascii_lower world_editing
                                  [lit "/tmp/a.txt"; lit "/tmp/b c"]))
                    eq_refl) true).
    vm_compute. reflexivity.
Defined.

Lemma main_printed_with_files_witness :
  printed (trace (main ascii_lower world_idle [lit "/tmp/a.txt"])) = [] ∧
  printed (trace (main ascii_lower world_editing [lit "/tmp/a.txt"; lit "/tmp/b c"]))
  = [lit "Opening files in a reused VSCode window: /tmp/a.txt '/tmp/b c'"].
Proof.
  split.
  - apply (proj1 (main_printed_with_files ascii_lower world_idle (lit "/tmp/a.txt") [])).
    reflexivity.
  - apply (proj2 (proj2 (main_printed_with_files ascii_lower world_editing
                           (lit "/tmp/a.txt") [lit "/tmp/b c"]) eq_refl) true).
    vm_compute. reflexivity.
Defined.

Lemma main_not_running_frame_witness :
  main ascii_lower world_idle [lit "/tmp/a.txt"]
  = main (λ s, s) world_idle_elsewhere [lit "/tmp/a.txt"].
Proof.
  apply (main_not_running_frame ascii_lower (λ s, s) world_idle world_idle_elsewhere);
    reflexivity.
Defined.

Lemma find_reusable_window_status_failed_witness :
  find_reusable_window_from_status ascii_lower world_status_error
  = find_reusable_window_from_status (λ s, s) world_status_error_blind ∧
  last (trace (find_reusable_window_from_status ascii_lower world_status_error))
  = Some (LogDebug (lit "Failed to run 'code --status'. Stderr: crashed")).
Proof.
  apply (find_reusable_window_status_failed ascii_lower (λ s, s)
           world_status_error world_status_error_blind).
  - reflexivity.
  - intros out err. vm_compute. discriminate.
Defined.

Lemma run_command_returns_witness :
  run_command world_idle (lit "code  --status")
  = ([Spawn [lit "code"; lit "--status"]; LogDebug (lit "Command not found: code")],
     Returns ([], lit "Command not found: code", 127%Z)).
Proof.
  apply (run_command_returns world_idle (lit "code  --status") (lit "code")
           [lit "--status"]); reflexivity.
Defined.

Lemma is_vscode_running_first_decisive_witness :
  is_vscode_running world_crowded = ([], Returns true) ∧
  is_vscode_running world_broken_scan
  = ([], Raises (Exception OtherException (lit "boom"))).
Proof.
  split.
  - apply (proj1 (is_vscode_running_first_decisive world_crowded [Info None]
                    [InfoRaises OtherException (lit "boom")] (Info (Some [electron]))
                    eq_refl eq_refl)); reflexivity.
  - apply (proj2 (is_vscode_running_first_decisive world_broken_scan
                    [Info (Some [lit "/sbin/launchd"])] [Info (Some [electron])]
                    (InfoRaises OtherException (lit "boom")) eq_refl eq_refl)
             OtherException (lit "boom")); reflexivity.
Defined.

Lemma get_vscode_window_names_as_spec_witness :
  ∃ names,
    result (get_vscode_window_names_as world_scripted) = Returns names ∧
    (names = [] ↔ strip (lit "main.py, Welcome" ++ [10]) = []) ∧
    (strip (lit "main.py, Welcome" ++ [10]) ≠ [] →
     join (lit ", ") names = strip (lit "main.py, Welcome" ++ [10])).
Proof.
  apply (proj1 (proj2 (proj2 (proj2 (get_vscode_window_names_as_spec world_scripted))))
           _ []).
  reflexivity.
Defined.

Lemma classify_reports_least_title_witness :
  ∃ t,
    last (trace (classify (PyList [lit "zeta"; lit "Welcome"; lit "alpha"; lit "beta"])
                   [lit "alpha"]))
    = Some (found_line t) ∧
    t ∈ [lit "zeta"; lit "Welcome"; lit "alpha"; lit "beta"] ∧
    (t ∉ [lit "alpha"]) ∧ t ≠ lit "Welcome" ∧
    ∀ t', t' ∈ [lit "zeta"; lit "Welcome"; lit "alpha"; lit "beta"] →
          (t' ∉ [lit "alpha"]) → t' ≠ lit "Welcome" → Str.le t t'.
Proof.
  apply (classify_reports_least_title
           [lit "zeta"; lit "Welcome"; lit "alpha"; lit "beta"] [lit "alpha"]).
  vm_compute. reflexivity.
Defined.

(** ** A line of the workspace section *)

(** X15. On a line made of a bar, one or more space characters, the text
    [Window], a space, an opening parenthesis, a title and a closing
    parenthesis, with no newline in it, the pattern captures the whole
    title, closing and opening parentheses of the title included, and the
    parser keeps it trimmed. *)
Theorem search_window_line (ws g : str) :
  ws ≠ [] → forallb is_space ws = true → (10 ∉ ws) → (10 ∉ g) →
  search (124 :: ws ++ lit "Window (" ++ g ++ [41]) = Some g ∧
  line_title (124 :: ws ++ lit "Window (" ++ g ++ [41]) = Some (strip g).
Proof.
  intros Hne Hws Hnl1 Hnl2.
  assert (Hm : match_here (124 :: ws ++ lit "Window (" ++ g ++ [41]) = Some g).
  { apply match_here_spec.
    - rewrite not_elem_of_cons, !not_elem_of_app. repeat split; try done.
      + by apply (bool_decide_unpack _).
      + rewrite not_elem_of_cons. split; [done | apply not_elem_of_nil].
    - exists ws, []. repeat split; try done. apply not_elem_of_nil. }
  assert (Hs : search (124 :: ws ++ lit "Window (" ++ g ++ [41]) = Some g).
  { cbn [search]. by rewrite Hm. }
  split; [exact Hs|]. unfold line_title. by rewrite Hs.
Qed.

Lemma search_window_line_witness :
  search (124 :: lit "  " ++ lit "Window (" ++ lit "notes.txt (Working Tree) " ++ [41])
  = Some (lit "notes.txt (Working Tree) ") ∧
  line_title (124 :: lit "  " ++ lit "Window (" ++ lit "notes.txt (Working Tree) " ++ [41])
  = Some (strip (lit "notes.txt (Working Tree) ")).
Proof.
  apply (search_window_line (lit "  ") (lit "notes.txt (Working Tree) ")).
  - discriminate.
  - reflexivity.
  - apply (bool_decide_unpack _). reflexivity.
  - apply (bool_decide_unpack _). reflexivity.
Defined.

(** X16. Whatever the world, [find_reusable_window_from_status] calls
    [subprocess.run] exactly once, for the status command, activates no
    application, prints nothing on standard output and never exits the
    program. *)
Theorem find_reusable_window_effects (lower : str → str) (w : world) :
  actions (trace (find_reusable_window_from_status lower w)) = [Spawn status_argv] ∧
  printed (trace (find_reusable_window_from_status lower w)) = [] ∧
  ∀ code, result (find_reusable_window_from_status lower w) ≠ Raises (SystemExit code).
Proof.
  destruct (find_reusable_window_trace lower w) as (logs & Ht & Hlogs).
  rewrite Ht. split; [|split].
  - cbn [actions List.filter]. f_equal. by apply actions_logs.
  - cbn [printed omap list_omap]. by apply printed_logs.
  - intros code Hr.
    by apply (proj2 (find_reusable_window_from_status_sat lower w)) in Hr.
Qed.

(** ** The launch with the editor running and the command missing *)

(** C7. With the editor running, a file to open and the [code] command
    missing, the status call is turned into return code 127 by
    [run_command], so that no reusable window is reported and the run
    goes on to open a new window; the new-window call is made, it raises
    [FileNotFoundError], nothing catches it, the [sys.exit(0)] that
    follows is not reached, and the run ends with that exception and exit
    status 1 instead of exit code 0. *)
Theorem main_launch_new_code_missing :
  result (is_vscode_running world_code_missing) = Returns true ∧
  result (find_reusable_window_from_status ascii_lower world_code_missing)
  = Returns false ∧
  actions (trace (main ascii_lower world_code_missing [lit "/tmp/a.txt"]))
  = [Spawn [lit "code"; lit "--status"];
     Spawn [lit "code"; lit "--new-window"; lit "/tmp/a.txt"]] ∧
  printed (trace (main ascii_lower world_code_missing [lit "/tmp/a.txt"]))
  = [lit "Opening files in a new VSCode window: /tmp/a.txt"] ∧
  result (main ascii_lower world_code_missing [lit "/tmp/a.txt"])
  = Raises (Exception FileNotFoundError
              (lit "[Errno 2] No such file or directory: 'code'")) ∧
  exit_status (result (main ascii_lower world_code_missing [lit "/tmp/a.txt"])) = 1%Z.
Proof. repeat split; vm_compute; reflexivity. Qed.

(** In general: with the editor running and a classification that
    returns, a launch call that raises makes [main] end with the
    exception of the call. *)
Lemma main_launch_raises (lower : str → str) (w : world) (b : bool)
    (f : str) (fs : list str) (cls : exn_class) (msg : str) :
  result (is_vscode_running w) = Returns true →
  result (find_reusable_window_from_status lower w) = Returns b →
  os_run w (launch_argv b (f :: fs)) = RunRaises cls msg →
  result (main lower w (f :: fs)) = Raises (Exception cls msg) ∧
  exit_status (result (main lower w (f :: fs))) = 1%Z.
Proof.
  intros Hr Hb Hos. rewrite (main_launch lower w b f fs Hr Hb). cbn [result snd].
  fold (launch_argv b (f :: fs)). unfold after_launch. by rewrite Hos.
Qed.
